(** * FreshestCam: the fruit-analysis services

    A shallow embedding of [backend/services/openai_service.py]
    ([get_fruit_name], [analyze_ripeness_with_openai]) and of
    [backend/services/cv_service.py] ([analyze_image]), with the properties
    of the fallback resolver and of the response parser; then the rest of
    the two files ([encode_image_base64], [get_recipes_and_safety],
    [get_nutrition_and_impact], the statements that set [client] and
    [CLIENT]) with further properties.

    - A Python value is a term of [pyval]: the values JSON decodes to.
      A [dict] is a list of items in insertion order.
    - A call that may raise returns an [outcome]; [try ... except] is
      [try_except], so that a function raises nothing exactly when it
      returns [Returns] on every input.
    - A [str] is a [string] read as a sequence of code points below 256;
      an [int] is a [Z]; a [float] is the kernel's binary64, compared and
      rounded by its exact value.
    - The two providers, the image library, [json.loads], [float] on text
      and the text [str(e)] of an exception lie outside the repository: a
      [World] supplies them, and the properties hold in every world.
    - [print] calls are left out. *)

From Stdlib Require Import String Ascii List NArith ZArith QArith Qround Qabs Lqa Lia
  Bool Floats.
Import ListNotations.

Set Warnings "-inexact-float,-register-all".

(** ** Python values, exceptions and builtins *)

Module Py.

Local Open Scope string_scope.

(** The values that reach the two services: what [json.loads] and the
    provider clients hand back. A [dict] keeps its items in insertion
    order. *)
Inductive pyval : Type :=
| PNone
| PBool (b : bool)
| PInt (z : Z)
| PFloat (f : float)
| PStr (s : string)
| PList (l : list pyval)
| PDict (d : list (string * pyval)).

Definition pydict := list (string * pyval).

(** The exceptions [except Exception] catches, by class. [JSONDecodeError]
    is the one [json.loads] raises on text that is not JSON;
    [ExternalError] stands for whatever a provider call or the image
    library raises, with its message. *)
Inductive exn : Type :=
| AttributeError
| TypeError
| IndexError
| ValueError
| OverflowError
| JSONDecodeError
| ExternalError (message : string).

Definition is_JSONDecodeError (e : exn) : bool :=
  match e with JSONDecodeError => true | _ => false end.

Inductive outcome (A : Type) : Type :=
| Returns (a : A)
| Raises (e : exn).

Arguments Returns {A} a.
Arguments Raises {A} e.

Definition bind {A B : Type} (c : outcome A) (k : A -> outcome B) : outcome B :=
  match c with
  | Returns a => k a
  | Raises e => Raises e
  end.

(** [try: c  except Exception as e: h e] *)
Definition try_except {A : Type} (c : outcome A) (h : exn -> outcome A) : outcome A :=
  match c with
  | Returns a => Returns a
  | Raises e => h e
  end.

(** [try: c  except <class> as e: h e], the class given by [catches]. *)
Definition try_except_only {A : Type} (catches : exn -> bool)
  (c : outcome A) (h : exn -> outcome A) : outcome A :=
  match c with
  | Returns a => Returns a
  | Raises e => if catches e then h e else Raises e
  end.

(** *** Text

    A [string] is read as a sequence of code points below 256. *)

(** [str.isspace] on one character, which is also what [\s] matches in a
    [str] pattern and what [split] and [strip] remove. *)
Definition isspace (c : ascii) : bool :=
  let n := nat_of_ascii c in
  (((9 <=? n) && (n <=? 13)) || ((28 <=? n) && (n <=? 32))
   || (n =? 133) || (n =? 160))%nat.

Definition is_lower_az (c : ascii) : bool :=
  let n := nat_of_ascii c in ((97 <=? n) && (n <=? 122))%nat.

Definition lower_char (c : ascii) : ascii :=
  let n := nat_of_ascii c in
  if (((65 <=? n) && (n <=? 90))
      || ((192 <=? n) && (n <=? 222) && negb (n =? 215)))%nat
  then ascii_of_nat (n + 32) else c.

Fixpoint map_chars (f : ascii -> ascii) (s : string) : string :=
  match s with
  | EmptyString => EmptyString
  | String c s' => String (f c) (map_chars f s')
  end.

Fixpoint filter_chars (keep : ascii -> bool) (s : string) : string :=
  match s with
  | EmptyString => EmptyString
  | String c s' =>
      if keep c then String c (filter_chars keep s') else filter_chars keep s'
  end.

(** Every character of [s] satisfies [p]. *)
Fixpoint forall_chars (p : ascii -> bool) (s : string) : bool :=
  match s with
  | EmptyString => true
  | String c s' => p c && forall_chars p s'
  end.

(** [s.lower()] *)
Definition lower (s : string) : string := map_chars lower_char s.

Fixpoint lstrip (s : string) : string :=
  match s with
  | EmptyString => EmptyString
  | String c s' => if isspace c then lstrip s' else s
  end.

Fixpoint rstrip (s : string) : string :=
  match s with
  | EmptyString => EmptyString
  | String c s' =>
      match rstrip s' with
      | EmptyString => if isspace c then EmptyString else String c EmptyString
      | r => String c r
      end
  end.

(** [s.strip()] *)
Definition strip (s : string) : string := rstrip (lstrip s).

(** [s.split()]: the maximal runs of characters that are not whitespace. *)
Fixpoint split (s : string) : list string :=
  match s with
  | EmptyString => []
  | String c s' =>
      if isspace c then split s'
      else match split s' with
           | [] => [String c EmptyString]
           | t :: ts =>
               match s' with
               | EmptyString => [String c EmptyString]
               | String c' _ =>
                   if isspace c' then String c EmptyString :: t :: ts
                   else String c t :: ts
               end
           end
  end.

(** [sub in s] *)
Fixpoint contains (sub s : string) : bool :=
  prefix sub s
  || match s with
     | EmptyString => false
     | String _ s' => contains sub s'
     end.

(** [s.find(sub)], [None] for -1. *)
Fixpoint find_index (sub s : string) : option nat :=
  if prefix sub s then Some 0%nat
  else match s with
       | EmptyString => None
       | String _ s' => option_map S (find_index sub s')
       end.

(** [re.sub(lit + r"\s*", "", s)] for a literal [lit] that is not empty and
    holds no whitespace: every occurrence of [lit], scanning from the left,
    goes together with the whitespace that follows it. [skip] counts the
    characters of the current occurrence still to drop; [ws] says that the
    scan is in the whitespace after an occurrence. *)
Fixpoint re_sub_scan (lit : string) (skip : nat) (ws : bool) (s : string) : string :=
  match s with
  | EmptyString => EmptyString
  | String c s' =>
      match skip with
      | S k => re_sub_scan lit k true s'
      | O =>
          if ws && isspace c then re_sub_scan lit 0 true s'
          else if prefix lit s then re_sub_scan lit (String.length lit - 1) true s'
          else String c (re_sub_scan lit 0 false s')
      end
  end.

Definition re_sub_lit_ws (lit s : string) : string := re_sub_scan lit 0 false s.

(** [re.sub(r"[^a-z\s]", "", s)] *)
Definition re_sub_not_az_ws (s : string) : string :=
  filter_chars (fun c => is_lower_az c || isspace c) s.

Fixpoint last_opt {A : Type} (l : list A) : option A :=
  match l with
  | [] => None
  | [x] => Some x
  | _ :: l' => last_opt l'
  end.

Definition in_strings (s : string) (l : list string) : bool :=
  existsb (String.eqb s) l.

(** *** Numbers

    [int] is [Z]; [float] is the kernel's binary64. A number is compared,
    as Python compares it, by its exact value: [xnum] is that value. *)

Inductive xnum : Type :=
| XNaN
| XNegInf
| XFin (q : Q)
| XPosInf.

(** The rational [m * 2^e]. *)
Definition dyadic (m e : Z) : Q :=
  match e with
  | Zneg p => Qmake m (Pos.shiftl 1 (Npos p))
  | _ => inject_Z (m * 2 ^ e)
  end.

Definition float_val (f : float) : xnum :=
  match Prim2SF f with
  | S754_nan => XNaN
  | S754_infinity true => XNegInf
  | S754_infinity false => XPosInf
  | S754_zero _ => XFin 0
  | S754_finite s m e => XFin (dyadic (if s then Zneg m else Zpos m) e)
  end.

(** The value of a number; [bool] is a subclass of [int]. *)
Definition num_val (v : pyval) : option xnum :=
  match v with
  | PBool b => Some (XFin (inject_Z (if b then 1 else 0)))
  | PInt z => Some (XFin (inject_Z z))
  | PFloat f => Some (float_val f)
  | _ => None
  end.

(** [a > b] on values; every comparison with a NaN is false. *)
Definition xgt (a b : xnum) : bool :=
  match a, b with
  | XNaN, _ | _, XNaN => false
  | XNegInf, _ => false
  | _, XNegInf => true
  | XPosInf, XPosInf => false
  | XPosInf, _ => true
  | XFin _, XPosInf => false
  | XFin p, XFin q => match Qcompare p q with Gt => true | _ => false end
  end.

(** [a > b] on [str]: by code points, the longer of two texts winning when
    one is a prefix of the other. *)
Fixpoint str_gt (a b : string) : bool :=
  match a, b with
  | EmptyString, _ => false
  | String _ _, EmptyString => true
  | String c a', String d b' =>
      let n := nat_of_ascii c in
      let m := nat_of_ascii d in
      if (m <? n)%nat then true
      else if (n <? m)%nat then false
      else str_gt a' b'
  end.

(** [a > b]. Numbers compare with numbers and text with text; the other
    pairs raise [TypeError]. Python also orders two lists; that ordering is
    not modelled, and two lists are treated here as the unordered pairs
    are. (As keys of [max] in [analyze_image], lists end in the same
    handler either way: [round] raises on a list.) *)
Definition py_gt (a b : pyval) : outcome bool :=
  match num_val a, num_val b with
  | Some x, Some y => Returns (xgt x y)
  | _, _ =>
      match a, b with
      | PStr s, PStr t => Returns (str_gt s t)
      | _, _ => Raises TypeError
      end
  end.

(** [a != b] for a text [b]. *)
Definition py_ne_str (a : pyval) (b : string) : bool :=
  match a with
  | PStr s => negb (String.eqb s b)
  | _ => true
  end.

(** [bool(v)], as [not v] and [if v] use it. *)
Definition py_truthy (v : pyval) : bool :=
  match v with
  | PNone => false
  | PBool b => b
  | PInt z => negb (z =? 0)%Z
  | PFloat f => negb (PrimFloat.is_zero f)
  | PStr s => negb (String.eqb s EmptyString)
  | PList l => match l with [] => false | _ => true end
  | PDict d => match d with [] => false | _ => true end
  end.

Fixpoint repeat_string (n : nat) (s : string) : string :=
  match n with
  | O => EmptyString
  | S k => s ++ repeat_string k s
  end.

Fixpoint repeat_list {A : Type} (n : nat) (l : list A) : list A :=
  match n with
  | O => []
  | S k => l ++ repeat_list k l
  end.

(** [v * n] for an [int] literal [n]; a [float] is multiplied by [float(n)]. *)
Definition py_mul_int (v : pyval) (n : Z) : outcome pyval :=
  match v with
  | PBool b => Returns (PInt ((if b then 1 else 0) * n))
  | PInt z => Returns (PInt (z * n))
  | PFloat f =>
      match binary_normalize prec emax n 0 false with
      | S754_infinity _ => Raises OverflowError
      | sf => Returns (PFloat (f * SF2Prim sf))
      end
  | PStr s => Returns (PStr (repeat_string (Z.to_nat n) s))
  | PList l => Returns (PList (repeat_list (Z.to_nat n) l))
  | PNone | PDict _ => Raises TypeError
  end.

(** The integer nearest to [q], the even one of two equally near. *)
Definition round_half_even (q : Q) : Z :=
  let fl := Qfloor q in
  match Qcompare (q - inject_Z fl) (1 # 2) with
  | Lt => fl
  | Gt => (fl + 1)%Z
  | Eq => if Z.even fl then fl else (fl + 1)%Z
  end.

(** The binary64 value nearest to [n / 100], with the sign [s]. *)
Definition hundredths (s : bool) (n : Z) : float :=
  match n with
  | Zpos p =>
      SF2Prim (SFdiv prec emax (S754_finite s p 0) (S754_finite false 100 0))
  | _ => SF2Prim (S754_zero s)
  end.

(** [round(f, 2)] on a [float] of magnitude [m * 2^e]: the binary64 value
    nearest to the decimal with two places that is nearest to [f] (the even
    one of two equally near). Zeros, infinities and NaN round to
    themselves; the sign is kept. *)
Definition float_round2 (f : float) : float :=
  match Prim2SF f with
  | S754_finite s m e => hundredths s (round_half_even (dyadic (Zpos m * 100) e))
  | _ => f
  end.

(** [round(v, 2)]: an [int] rounds to itself. *)
Definition py_round2 (v : pyval) : outcome pyval :=
  match v with
  | PBool b => Returns (PInt (if b then 1 else 0))
  | PInt z => Returns (PInt z)
  | PFloat f => Returns (PFloat (float_round2 f))
  | _ => Raises TypeError
  end.

(** [float(z)] for an [int]: the nearest binary64 value, or [OverflowError]
    beyond the largest one. *)
Definition float_of_int (z : Z) : outcome float :=
  match binary_normalize prec emax z 0 false with
  | S754_infinity _ => Raises OverflowError
  | sf => Returns (SF2Prim sf)
  end.

(** *** Dictionaries *)

Fixpoint dict_get (d : pydict) (k : string) : option pyval :=
  match d with
  | [] => None
  | (k', v) :: d' => if String.eqb k k' then Some v else dict_get d' k
  end.

(** [d.get(k, default)] on a [dict] *)
Definition dict_get_default (d : pydict) (k : string) (default : pyval) : pyval :=
  match dict_get d k with
  | Some v => v
  | None => default
  end.

(** [k in d] *)
Definition dict_mem (k : string) (d : pydict) : bool :=
  match dict_get d k with
  | Some _ => true
  | None => false
  end.

(** *** Methods and builtins on values of any type *)

(** [v.get(k, default)]: only a [dict] has the method. *)
Definition py_get (v : pyval) (k : string) (default : pyval) : outcome pyval :=
  match v with
  | PDict d => Returns (dict_get_default d k default)
  | _ => Raises AttributeError
  end.

Definition py_strip (v : pyval) : outcome string :=
  match v with
  | PStr s => Returns (strip s)
  | _ => Raises AttributeError
  end.

Definition py_lower (v : pyval) : outcome string :=
  match v with
  | PStr s => Returns (lower s)
  | _ => Raises AttributeError
  end.

Definition py_split (v : pyval) : outcome (list string) :=
  match v with
  | PStr s => Returns (split s)
  | _ => Raises AttributeError
  end.

(** [l[-1]] *)
Definition py_last {A : Type} (l : list A) : outcome A :=
  match last_opt l with
  | Some x => Returns x
  | None => Raises IndexError
  end.

Fixpoint chars_of (s : string) : list pyval :=
  match s with
  | EmptyString => []
  | String c s' => PStr (String c EmptyString) :: chars_of s'
  end.

(** What a [for] over [v] yields: the items of a list, the characters of a
    text, the keys of a [dict]. *)
Definition py_iter (v : pyval) : outcome (list pyval) :=
  match v with
  | PList l => Returns l
  | PStr s => Returns (chars_of s)
  | PDict d => Returns (map (fun kv => PStr (fst kv)) d)
  | _ => Raises TypeError
  end.

(** The scan of [max(items, key=key)]: an item replaces the running maximum
    when its key is greater, so the first of equal keys stays. *)
Fixpoint max_scan (key : pyval -> outcome pyval) (maxitem maxval : pyval)
  (items : list pyval) : outcome pyval :=
  match items with
  | [] => Returns maxitem
  | item :: rest =>
      bind (key item) (fun val =>
      bind (py_gt val maxval) (fun greater =>
      if greater then max_scan key item val rest
      else max_scan key maxitem maxval rest))
  end.

(** [max(v, key=key)] *)
Definition py_max (v : pyval) (key : pyval -> outcome pyval) : outcome pyval :=
  bind (py_iter v) (fun items =>
  match items with
  | [] => Raises ValueError
  | item :: rest => bind (key item) (fun val => max_scan key item val rest)
  end).

End Py.

Import Py.

Declare Scope py_scope.
Delimit Scope py_scope with py.
Notation "x <- c ;; k" := (bind c (fun x => k))
  (at level 61, c at next level, right associativity) : py_scope.

(** ** What lies outside the repository *)

Definition bytes := list Byte.byte.

(** The two instructions [openai_service] sends with an image. *)
Inductive prompt : Type :=
| FruitNamePrompt
| RipenessPrompt.

(** The OpenAI client. [completion_content p max_tokens image] is the value
    of [client.chat.completions.create(...).choices[0].message.content]
    for the instruction [p] and the image, or the exception raised on the
    way to it. *)
Record OpenAI : Type := {
  completion_content : prompt -> nat -> bytes -> outcome pyval
}.

(** An image of the image library: the bytes it was decoded from and the
    size it was brought to. *)
Record pil_image : Type := {
  image_source : bytes;
  image_size : option (nat * nat)
}.

(** The Roboflow client: [infer image model_id]. *)
Record InferenceHTTPClient : Type := {
  infer : pil_image -> string -> outcome pyval
}.

Record World : Type := {
  (** [openai_service.client], [None] without an API key *)
  client : option OpenAI;
  (** [cv_service.CLIENT], [None] without its URL and key *)
  CLIENT : option InferenceHTTPClient;
  (** [Image.open(BytesIO(b)).convert("RGB")] *)
  Image_open_RGB : bytes -> outcome pil_image;
  (** [json.loads] *)
  json_loads : string -> outcome pyval;
  (** [float(s)] for a text [s], [None] where it raises [ValueError] *)
  float_of_str : string -> option float;
  (** [str(e)] *)
  str_exn : exn -> string
}.

(** [image.resize(size)] *)
Definition resize (image : pil_image) (size : nat * nat) : pil_image :=
  {| image_source := image_source image; image_size := Some size |}.

(** [float(v)] *)
Definition py_float (w : World) (v : pyval) : outcome float :=
  match v with
  | PFloat f => Returns f
  | PInt z => float_of_int z
  | PBool b => Returns (if b then 1%float else 0%float)
  | PStr s =>
      match float_of_str w s with
      | Some f => Returns f
      | None => Raises ValueError
      end
  | _ => Raises TypeError
  end.

(** ** [backend/services/openai_service.py] *)

Module openai_service.

Local Open Scope string_scope.
Local Open Scope py_scope.

(** [get_fruit_name(image_bytes)] *)
Definition get_fruit_name (w : World) (image_bytes : bytes) : outcome pydict :=
  match client w with
  | None => Returns [("error", PStr "OpenAI API not configured")]
  | Some cl =>
      try_except
        (content <- completion_content cl FruitNamePrompt 50 image_bytes ;;
         stripped <- py_strip content ;;
         let text := lower stripped in
         let fruit_name := re_sub_not_az_ws text in
         let fruit_name :=
           match split fruit_name with
           | first :: _ => first
           | [] => "unknown"
           end in
         Returns [("fruit_name", PStr fruit_name)])
        (fun e => Returns [("fruit_name", PStr "unknown")])
  end.

Definition common_fruits : list string :=
  ["apple"; "banana"; "mango"; "strawberry"; "orange";
   "grape"; "pear"; "peach"; "plum"; "cherry"].

(** The [if]/[elif] chain on [text_lower] of the handler for text that is
    not JSON. *)
Definition scan_ripeness (text_lower : string) : string :=
  if contains "unripe" text_lower then "unripe"
  else if contains "overripe" text_lower then "overripe"
  else if contains "ripe" text_lower then "ripe"
  else "unknown".

(** The [for fruit in common_fruits] loop of that handler, from [fruits]
    on: the first fruit of the list that occurs in the text. *)
Fixpoint scan_fruit (fruits : list string) (text_lower : string) : string :=
  match fruits with
  | [] => "unknown"
  | fruit :: rest =>
      if contains fruit text_lower then fruit else scan_fruit rest text_lower
  end.

(** The two [re.sub] calls that remove Markdown code fences. *)
Definition strip_fences (text : string) : string :=
  re_sub_lit_ws "```" (re_sub_lit_ws "```json" text).

(** [analyze_ripeness_with_openai(image_bytes)] *)
Definition analyze_ripeness_with_openai (w : World) (image_bytes : bytes)
  : outcome pydict :=
  match client w with
  | None => Returns [("error", PStr "OpenAI API not configured")]
  | Some cl =>
      try_except
        (content <- completion_content cl RipenessPrompt 200 image_bytes ;;
         text <- py_strip content ;;
         let text := strip_fences text in
         try_except_only is_JSONDecodeError
           (result <- json_loads w text ;;
            fruit_name0 <- py_get result "fruit_name" (PStr "unknown") ;;
            fruit_name <- py_lower fruit_name0 ;;
            ripeness0 <- py_get result "ripeness" (PStr "unknown") ;;
            ripeness <- py_lower ripeness0 ;;
            confidence0 <- py_get result "confidence" (PFloat 75) ;;
            confidence <- py_float w confidence0 ;;
            let ripeness :=
              if negb (in_strings ripeness ["unripe"; "ripe"; "overripe"])
              then "ripe" else ripeness in
            Returns [("fruit_name", PStr fruit_name);
                     ("ripeness", PStr ripeness);
                     ("confidence", PFloat (float_round2 confidence));
                     ("source", PStr "openai")])
           (fun je =>
            let text_lower := lower text in
            let ripeness := scan_ripeness text_lower in
            let fruit_name := scan_fruit common_fruits text_lower in
            Returns [("fruit_name", PStr fruit_name);
                     ("ripeness", PStr ripeness);
                     ("confidence", PFloat 70);
                     ("source", PStr "openai")]))
        (fun e => Returns [("error", PStr (str_exn w e))])
  end.

End openai_service.

(** ** [backend/services/cv_service.py] *)

Module cv_service.

Import openai_service.

Local Open Scope string_scope.
Local Open Scope py_scope.

(** The report built from a successful [analyze_ripeness_with_openai]
    result, as the three fallback branches build it. *)
Definition openai_report (fruit_name : pyval) (openai_result : pydict)
  (source : string) : pydict :=
  [("fruit_name", fruit_name);
   ("ripeness", dict_get_default openai_result "ripeness" (PStr "unknown"));
   ("confidence", dict_get_default openai_result "confidence" (PFloat 70));
   ("source", PStr source)].

(** [lambda x: x.get("confidence", 0)] *)
Definition confidence_key (x : pyval) : outcome pyval :=
  py_get x "confidence" (PInt 0).

(** The branch of the [try] block for an answer with predictions: the
    statements from [top_pred = max(...)] to the [return] of the report. *)
Definition cv_report (fruit_name preds : pyval) : outcome pydict :=
  top_pred <- py_max preds confidence_key ;;
  raw_class <- py_get top_pred "class" (PStr "unknown") ;;
  stage <- (if py_ne_str raw_class "unknown"
            then (tokens <- py_split raw_class ;; py_last tokens)
            else Returns "unknown") ;;
  score <- py_get top_pred "confidence" (PInt 0) ;;
  scaled <- py_mul_int score 100 ;;
  confidence <- py_round2 scaled ;;
  Returns [("fruit_name", fruit_name);
           ("ripeness", PStr stage);
           ("confidence", confidence);
           ("source", PStr "cv_model")].

(** The body of the [try] block of [analyze_image]. *)
Definition cv_attempt (w : World) (cv : InferenceHTTPClient)
  (fruit_name : pyval) (image_bytes : bytes) : outcome pydict :=
  image <- Image_open_RGB w image_bytes ;;
  let image := resize image (640, 640)%nat in
  result <- infer cv image "fruit-ripeness-unjex/2" ;;
  preds <- py_get result "predictions" (PList []) ;;
  if negb (py_truthy preds) then
    openai_result <- analyze_ripeness_with_openai w image_bytes ;;
    if negb (dict_mem "error" openai_result)
    then Returns (openai_report fruit_name openai_result "openai_fallback")
    else Returns [("error",
                   PStr "No predictions found from CV model and OpenAI fallback failed")]
  else cv_report fruit_name preds.

(** [analyze_image(image_bytes)] *)
Definition analyze_image (w : World) (image_bytes : bytes) : outcome pydict :=
  fruit_info <- get_fruit_name w image_bytes ;;
  let fruit_name := dict_get_default fruit_info "fruit_name" (PStr "unknown") in
  match CLIENT w with
  | None =>
      openai_result <- analyze_ripeness_with_openai w image_bytes ;;
      if negb (dict_mem "error" openai_result)
      then Returns (openai_report fruit_name openai_result "openai_primary")
      else Returns [("error", PStr "OpenAI analysis failed")]
  | Some cv =>
      try_except
        (cv_attempt w cv fruit_name image_bytes)
        (fun e =>
         openai_result <- analyze_ripeness_with_openai w image_bytes ;;
         if negb (dict_mem "error" openai_result)
         then Returns (openai_report fruit_name openai_result "openai_fallback")
         else Returns [("error",
                        PStr ("CV model error and OpenAI fallback failed: "
                              ++ str_exn w e))])
  end.

End cv_service.

(** ** The vocabulary of the properties *)

Import openai_service cv_service.

Local Open Scope string_scope.

(** A populated report: the four fields, in the order the code writes them,
    a text for the name, the ripeness and the source, a number for the
    confidence. *)
Definition is_number (v : pyval) : bool :=
  match v with
  | PInt _ | PFloat _ => true
  | _ => false
  end.

Definition is_report (d : pydict) : bool :=
  match d with
  | [(k1, PStr _); (k2, PStr _); (k3, c); (k4, PStr _)] =>
      String.eqb k1 "fruit_name" && String.eqb k2 "ripeness"
      && String.eqb k3 "confidence" && String.eqb k4 "source" && is_number c
  | _ => false
  end.

(** An error result: the single key ["error"] with its message. *)
Definition is_error (d : pydict) : bool :=
  match d with
  | [(k, PStr _)] => String.eqb k "error"
  | _ => false
  end.

(** The four ripeness stages of the glossary. *)
Definition ripeness_stages : list string :=
  ["unripe"; "ripe"; "overripe"; "unknown"].

(** The fruit name [analyze_image] keeps from [get_fruit_name]. *)
Definition name_of (fruit_info : pydict) : pyval :=
  dict_get_default fruit_info "fruit_name" (PStr "unknown").

(** The confidence of a prediction, as [confidence_key] reads it, and its
    class label. *)
Definition score_of (p : pyval) : pyval :=
  match p with
  | PDict d => dict_get_default d "confidence" (PInt 0)
  | _ => PNone
  end.

Definition label_of (p : pyval) : pyval :=
  match p with
  | PDict d => dict_get_default d "class" (PStr "unknown")
  | _ => PNone
  end.

(** The exact value of a confidence, NaN for what is not a number. *)
Definition score_val (p : pyval) : xnum :=
  match num_val (score_of p) with
  | Some x => x
  | None => XNaN
  end.

Definition is_nan_x (x : xnum) : bool :=
  match x with XNaN => true | _ => false end.

(** A prediction of Provider A: a record whose confidence is a number
    (not NaN) and whose class label is a text. *)
Definition is_prediction (p : pyval) : bool :=
  match p with
  | PDict _ =>
      negb (is_nan_x (score_val p))
      && match label_of p with PStr _ => true | _ => false end
  | _ => false
  end.

(** The last whitespace-delimited token of a class label. *)
Definition last_token (label : pyval) : option string :=
  match label with
  | PStr s => last_opt (split s)
  | _ => None
  end.

(** [top] is the prediction of maximum confidence in [preds], the first
    of those that share it: it stands after [before], every confidence in
    [before] is smaller, and no confidence in [preds] is greater. *)
Definition first_maximum (preds : list pyval) (top : pyval) : Prop :=
  exists before after,
    preds = (before ++ top :: after)%list
    /\ (forall p, In p before -> xgt (score_val top) (score_val p) = true)
    /\ (forall p, In p preds -> xgt (score_val p) (score_val top) = false).

(** Provider A answered the request for [image_bytes] with [result]. *)
Definition provider_A_returns (w : World) (cv : InferenceHTTPClient)
  (image_bytes : bytes) (result : pyval) : Prop :=
  exists image,
    Image_open_RGB w image_bytes = Returns image
    /\ infer cv (resize image (640, 640)%nat) "fruit-ripeness-unjex/2"
       = Returns result.

(** The call to Provider A failed with [e]: the image could not be decoded,
    or the request raised. *)
Definition provider_A_raises (w : World) (cv : InferenceHTTPClient)
  (image_bytes : bytes) (e : exn) : Prop :=
  Image_open_RGB w image_bytes = Raises e
  \/ exists image,
       Image_open_RGB w image_bytes = Returns image
       /\ infer cv (resize image (640, 640)%nat) "fruit-ripeness-unjex/2"
          = Raises e.

(** Provider B replied to the instruction [p] with the text [reply]. *)
Definition provider_B_replies (w : World) (p : prompt) (max_tokens : nat)
  (image_bytes : bytes) (reply : string) : Prop :=
  exists cl,
    client w = Some cl
    /\ completion_content cl p max_tokens image_bytes = Returns (PStr reply).

(** The text [analyze_ripeness_with_openai] hands to [json.loads]. *)
Definition json_text (reply : string) : string := strip_fences (strip reply).

(** The shape of a successful parser result. *)
Definition parsed_result (r : pydict) : Prop :=
  exists fruit_name ripeness confidence,
    r = [("fruit_name", PStr fruit_name); ("ripeness", PStr ripeness);
         ("confidence", PFloat confidence); ("source", PStr "openai")]
    /\ In ripeness ripeness_stages.

(** [{"error": msg}] *)
Definition error_result (msg : string) : pydict := [("error", PStr msg)].

(** Provider A answered with no prediction: the ["predictions"] entry of
    its answer, or the empty list that stands for a missing entry, is
    false as a condition. *)
Definition zero_predictions (w : World) (cv : InferenceHTTPClient)
  (image_bytes : bytes) : Prop :=
  exists result preds,
    provider_A_returns w cv image_bytes result
    /\ py_get result "predictions" (PList []) = Returns preds
    /\ py_truthy preds = false.

(** Provider A answered with the predictions [preds], at least one. *)
Definition some_predictions (w : World) (cv : InferenceHTTPClient)
  (image_bytes : bytes) (preds : list pyval) : Prop :=
  exists result,
    provider_A_returns w cv image_bytes result
    /\ py_get result "predictions" (PList []) = Returns (PList preds)
    /\ preds <> [].

(** The [try] block of [analyze_image] raised [e]: the call to Provider A
    failed, or its answer could not be read. *)
Definition cv_attempt_fails (w : World) (cv : InferenceHTTPClient)
  (image_bytes : bytes) (e : exn) : Prop :=
  exists fruit_name, cv_attempt w cv fruit_name image_bytes = Raises e.

(** The result of the fallback to Provider B with the ripeness result [r]:
    the report tagged [source], or the error [msg]. *)
Definition fallback (fruit_name : pyval) (r : pydict) (source msg : string)
  : pydict :=
  if negb (dict_mem "error" r) then openai_report fruit_name r source
  else error_result msg.

(** [r] is [c] rounded to two decimal places: for a finite [c] of
    magnitude [m * 2^e], the binary64 value nearest to [n / 100] for an
    integer [n] within one half of [100 * m * 2^e]; [c] itself otherwise. *)
Definition rounded_to_two_places (c r : float) : Prop :=
  match Prim2SF c with
  | S754_finite s m e =>
      exists n : Z,
        (Qabs (inject_Z 100 * dyadic (Zpos m) e - inject_Z n) <= 1 # 2)%Q
        /\ r = hundredths s n
  | _ => r = c
  end.

(** The same world with another Provider A. *)
Definition with_CLIENT (w : World) (cv : option InferenceHTTPClient) : World :=
  {| client := client w;
     CLIENT := cv;
     Image_open_RGB := Image_open_RGB w;
     json_loads := json_loads w;
     float_of_str := float_of_str w;
     str_exn := str_exn w |}.

(** The fruit that occurs first in the text, by the position of its first
    occurrence: the reading of the fruit scan that takes the first match in
    text order. [best] is the earliest occurrence found so far. *)
Fixpoint earliest_fruit (fruits : list string) (text_lower : string)
  (best : option (nat * string)) : option (nat * string) :=
  match fruits with
  | [] => best
  | fruit :: rest =>
      let best' :=
        match find_index fruit text_lower, best with
        | Some i, Some (j, _) => if (i <? j)%nat then Some (i, fruit) else best
        | Some i, None => Some (i, fruit)
        | None, _ => best
        end in
      earliest_fruit rest text_lower best'
  end.

Definition first_fruit_in_text_order (text_lower : string) : string :=
  match earliest_fruit common_fruits text_lower None with
  | Some (_, fruit) => fruit
  | None => "unknown"
  end.

(** ** Worlds for the examples *)

Module Examples.

Definition dq : string := String "034"%char EmptyString.
Definition nl : string := String "010"%char EmptyString.
Definition quoted (s : string) : string := dq ++ s ++ dq.

(** [json.loads] on the texts the examples hand to it: a text of [table]
    decodes to the value beside it, which is the value Python's decoder
    gives it; the other texts of the examples are prose, and are
    rejected. *)
Fixpoint loads_table (table : list (string * pyval)) (s : string) : outcome pyval :=
  match table with
  | [] => Raises JSONDecodeError
  | (t, v) :: rest => if String.eqb s t then Returns v else loads_table rest s
  end.

(** [float] on the texts the examples hand to it. *)
Fixpoint float_table (table : list (string * float)) (s : string) : option float :=
  match table with
  | [] => None
  | (t, f) :: rest => if String.eqb s t then Some f else float_table rest s
  end.

(** [str(e)] in the examples: the message of an external error, and for
    the exceptions the interpreter raises the name of their class. *)
Definition exn_text (e : exn) : string :=
  match e with
  | AttributeError => "AttributeError"
  | TypeError => "TypeError"
  | IndexError => "IndexError"
  | ValueError => "ValueError"
  | OverflowError => "OverflowError"
  | JSONDecodeError => "JSONDecodeError"
  | ExternalError message => message
  end.

(** The JSON text of the parser example and its decoded value. *)
Definition mango_json : string :=
  "{" ++ quoted "fruit_name" ++ ":" ++ quoted "Mango" ++ ","
      ++ quoted "ripeness" ++ ":" ++ quoted "ROTTEN" ++ ","
      ++ quoted "confidence" ++ ":" ++ quoted "88" ++ "}".

Definition mango_value : pyval :=
  PDict [("fruit_name", PStr "Mango"); ("ripeness", PStr "ROTTEN");
         ("confidence", PStr "88")].

(** A reply whose ripeness is [null], one whose confidence is a word, and
    the ripeness reply of the fallback example, with their decoded
    values. *)
Definition null_ripeness_json : string :=
  "{" ++ quoted "fruit_name" ++ ":" ++ quoted "mango" ++ ","
      ++ quoted "ripeness" ++ ":null,"
      ++ quoted "confidence" ++ ":85}".

Definition null_ripeness_value : pyval :=
  PDict [("fruit_name", PStr "mango"); ("ripeness", PNone);
         ("confidence", PInt 85)].

Definition worded_confidence_json : string :=
  "{" ++ quoted "fruit_name" ++ ":" ++ quoted "mango" ++ ","
      ++ quoted "ripeness" ++ ":" ++ quoted "ripe" ++ ","
      ++ quoted "confidence" ++ ":" ++ quoted "high" ++ "}".

Definition worded_confidence_value : pyval :=
  PDict [("fruit_name", PStr "mango"); ("ripeness", PStr "ripe");
         ("confidence", PStr "high")].

Definition overripe_json : string :=
  "{" ++ quoted "ripeness" ++ ":" ++ quoted "overripe" ++ ","
      ++ quoted "confidence" ++ ":60}".

Definition overripe_value : pyval :=
  PDict [("ripeness", PStr "overripe"); ("confidence", PInt 60)].

Definition json_facts : list (string * pyval) :=
  [(mango_json ++ nl, mango_value);
   ("[]", PList []);
   (null_ripeness_json, null_ripeness_value);
   (worded_confidence_json, worded_confidence_value);
   (overripe_json, overripe_value)].

Definition float_facts : list (string * float) := [("88", 88%float)].

(** Provider B answers the name request with [name_reply] and the ripeness
    request with [ripeness_reply]. *)
Definition openai (name_reply ripeness_reply : outcome pyval) : OpenAI :=
  {| completion_content := fun p _ _ =>
       match p with
       | FruitNamePrompt => name_reply
       | RipenessPrompt => ripeness_reply
       end |}.

(** Provider A answers every request with [answer]. *)
Definition roboflow (answer : outcome pyval) : InferenceHTTPClient :=
  {| infer := fun _ _ => answer |}.

Definition world (b : option OpenAI) (a : option InferenceHTTPClient) : World :=
  {| client := b;
     CLIENT := a;
     Image_open_RGB := fun src => Returns {| image_source := src; image_size := None |};
     json_loads := loads_table json_facts;
     float_of_str := float_table float_facts;
     str_exn := exn_text |}.

Definition prediction (class : string) (confidence : float) : pyval :=
  PDict [("class", PStr class); ("confidence", PFloat confidence)].

Definition predictions (l : list pyval) : outcome pyval :=
  Returns (PDict [("predictions", PList l)]).

(** The bytes of a photograph; the examples do not depend on them. *)
Definition photo : bytes := [].

Definition mango_reply : string := "```json" ++ nl ++ mango_json ++ nl ++ "```".

(** Provider B of the examples: the name reply and the fenced ripeness
    reply of the specification. *)
Definition provider_B : OpenAI :=
  openai (Returns (PStr "Banana!!")) (Returns (PStr mango_reply)).

(** A Provider B whose ripeness reply is prose. *)
Definition provider_B_prose : OpenAI :=
  openai (Returns (PStr "Banana!!"))
         (Returns (PStr "This mango looks quite unripe and firm.")).

(** A Provider B whose every call raises. *)
Definition provider_B_down : OpenAI :=
  openai (Raises (ExternalError "timeout")) (Raises (ExternalError "timeout")).

Definition two_predictions : list pyval :=
  [prediction "banana unripe" 0.4; prediction "banana ripe" 0.91].

Definition cv_two : InferenceHTTPClient := roboflow (predictions two_predictions).

(** A prediction whose class label is empty, and one whose label names a
    fruit and no stage. *)
Definition cv_empty_label : InferenceHTTPClient :=
  roboflow (predictions [prediction "" 0.9]).

Definition cv_fruit_label : InferenceHTTPClient :=
  roboflow (predictions [prediction "banana" 0.9]).

(** Two predictions of equal confidence. *)
Definition cv_tie : InferenceHTTPClient :=
  roboflow (predictions [prediction "banana ripe" 0.9;
                         prediction "banana unripe" 0.9]).

(** A Provider A that answers without predictions, and one whose call
    raises. *)
Definition cv_none : InferenceHTTPClient := roboflow (predictions []).

Definition cv_down : InferenceHTTPClient :=
  roboflow (Raises (ExternalError "connection refused")).

(** A Provider B that answers the ripeness request with [reply]. *)
Definition provider_B_saying (reply : string) : OpenAI :=
  openai (Returns (PStr "Banana!!")) (Returns (PStr reply)).

(** A prose reply that names two fruits, the banana first. *)
Definition two_fruits_reply : string :=
  "A banana next to an apple, both look ripe.".

End Examples.

(** * The rest of the two files

    [encode_image_base64], [get_recipes_and_safety] and
    [get_nutrition_and_impact] of [openai_service.py], and the statements
    at the top of the two files that set [client] and [CLIENT]. *)

(** ** [base64.b64encode] *)

Module base64.

Local Open Scope string_scope.
Local Open Scope N_scope.

Definition alphabet : string :=
  "ABCDEFGHIJKLMNOPQRSTUVWXYZabcdefghijklmnopqrstuvwxyz0123456789+/".

(** The character that stands for the six-bit value [n]. *)
Definition digit (n : N) : ascii :=
  match String.get (N.to_nat n) alphabet with
  | Some c => c
  | None => "="%char
  end.

(** [base64.b64encode(s)]: three bytes give four characters; a last group
    of one or two bytes is filled with zero bits and padded with [=]. The
    result, [bytes] in Python, is given as the text of the same
    characters. *)
Fixpoint b64encode (s : bytes) : string :=
  match s with
  | [] => ""
  | [x] =>
      let a := Byte.to_N x in
      String (digit (a / 4)) (String (digit (a mod 4 * 16)) "==")
  | [x; y] =>
      let a := Byte.to_N x in
      let b := Byte.to_N y in
      String (digit (a / 4))
        (String (digit (a mod 4 * 16 + b / 16))
           (String (digit (b mod 16 * 4)) "="))
  | x :: y :: z :: rest =>
      let a := Byte.to_N x in
      let b := Byte.to_N y in
      let c := Byte.to_N z in
      String (digit (a / 4))
        (String (digit (a mod 4 * 16 + b / 16))
           (String (digit (b mod 16 * 4 + c / 64))
              (String (digit (c mod 64)) (b64encode rest))))
  end.

End base64.

(** ** [backend/services/openai_service.py], the other functions *)

(** The replies of Provider B to the two other instructions. Each
    instruction is a fixed text around the values the function places in
    it, so that the request is determined by those values: the [context]
    and the image URL of the recipe request, the ripeness and the fruit
    name of the nutrition request. The second argument is [max_tokens]. *)
Record Advisor := {
  recipes_content : string -> nat -> string -> outcome pyval;
  nutrition_content : string -> nat -> string -> outcome pyval
}.

Module openai_advice.

Import base64.

Local Open Scope string_scope.
Local Open Scope py_scope.

Definition newline : string := String "010"%char EmptyString.

(** [encode_image_base64(image_bytes)]. Decoding the ASCII bytes of
    [b64encode] as UTF-8 gives the text of the same characters. *)
Definition encode_image_base64 (image_bytes : bytes) : string :=
  b64encode image_bytes.

(** [f"data:image/jpeg;base64,{base64_image}"] *)
Definition image_url (base64_image : string) : string :=
  "data:image/jpeg;base64," ++ base64_image.

(** An optional text argument as a condition, and in an f-string. *)
Definition truthy_text (v : option string) : bool :=
  match v with
  | Some s => negb (String.eqb s "")
  | None => false
  end.

Definition format_text (v : option string) : string :=
  match v with
  | Some s => s
  | None => "None"
  end.

(** The [context] of the recipe instruction. *)
Definition recipe_context (fruit_name ripeness : option string) : string :=
  if truthy_text fruit_name && truthy_text ripeness
  then newline ++ "The fruit has been identified as: " ++ format_text fruit_name
       ++ newline ++ "Current ripeness: " ++ format_text ripeness
  else "".

(** [get_recipes_and_safety(image_bytes, fruit_name=None, ripeness=None)] *)
Definition get_recipes_and_safety (w : World) (advisor : Advisor)
  (image_bytes : bytes) (fruit_name ripeness : option string)
  : outcome pyval :=
  match client w with
  | None => Returns (PDict [("error", PStr "OpenAI API not configured")])
  | Some _ =>
      try_except
        (let base64_image := encode_image_base64 image_bytes in
         let context := recipe_context fruit_name ripeness in
         content <- recipes_content advisor context 2000 (image_url base64_image) ;;
         text <- py_strip content ;;
         let text := strip_fences text in
         try_except_only is_JSONDecodeError
           (result <- json_loads w text ;;
            Returns result)
           (fun je =>
            Returns (PDict [("error", PStr "Failed to parse recipe response")])))
        (fun e => Returns (PDict [("error", PStr (str_exn w e))]))
  end.

(** [get_nutrition_and_impact(fruit_name, ripeness="ripe")], for the two
    arguments given as texts; a call without [ripeness] is the call with
    ["ripe"]. *)
Definition get_nutrition_and_impact (w : World) (advisor : Advisor)
  (fruit_name ripeness : string) : outcome pyval :=
  match client w with
  | None => Returns (PDict [("error", PStr "OpenAI API not configured")])
  | Some _ =>
      try_except
        (content <- nutrition_content advisor ripeness 800 fruit_name ;;
         text <- py_strip content ;;
         let text := strip_fences text in
         result <- json_loads w text ;;
         Returns result)
        (fun e => Returns (PDict [("error", PStr (str_exn w e))]))
  end.

(** The statements that set [client] when the file is loaded:
    [api_key] is what [os.getenv("OPENAI_API_KEY")] returned, [OpenAI_new]
    the constructor of the client. *)
Definition init_client (api_key : option string)
  (OpenAI_new : string -> outcome OpenAI) : outcome (option OpenAI) :=
  match api_key with
  | Some key =>
      if negb (truthy_text api_key) then Returns None
      else (cl <- OpenAI_new key ;; Returns (Some cl))
  | None => Returns None
  end.

End openai_advice.

(** ** [backend/services/cv_service.py], the statements that set [CLIENT] *)

Module cv_setup.

Import openai_advice.

(** [CLIENT] after the file is loaded: [roboflow_url] and [roboflow_key]
    are what [os.getenv] returned, [InferenceHTTPClient_new] is the
    constructor of the client, called with [api_url] and [api_key]. *)
Definition init_CLIENT (roboflow_url roboflow_key : option string)
  (InferenceHTTPClient_new : string -> string -> outcome InferenceHTTPClient)
  : option InferenceHTTPClient :=
  match roboflow_url, roboflow_key with
  | Some url, Some key =>
      if truthy_text roboflow_url && truthy_text roboflow_key then
        match InferenceHTTPClient_new url key with
        | Returns c => Some c
        | Raises e => None
        end
      else None
  | _, _ => None
  end.

End cv_setup.

(** ** The vocabulary of the further properties *)

Import base64 openai_advice cv_setup.

(** The six-bit value of a character of the alphabet. *)
Fixpoint index_from (n : N) (c : ascii) (s : string) : option N :=
  match s with
  | EmptyString => None
  | String c' s' => if Ascii.eqb c c' then Some n else index_from (n + 1) c s'
  end.

Definition digit_value (c : ascii) : option N := index_from 0 c alphabet.

Definition is_pad (c : ascii) : bool := Ascii.eqb c "="%char.

(** Reading Base64 text back: four characters give three bytes; a last
    group may end in one or two [=]. *)
Fixpoint b64decode (s : string) : option bytes :=
  match s with
  | EmptyString => Some []
  | String c1 (String c2 (String c3 (String c4 rest))) =>
      match digit_value c1, digit_value c2 with
      | Some v1, Some v2 =>
          match digit_value c3, digit_value c4 with
          | Some v3, Some v4 =>
              match Byte.of_N (v1 * 4 + v2 / 16),
                    Byte.of_N (v2 mod 16 * 16 + v3 / 4),
                    Byte.of_N (v3 mod 4 * 64 + v4),
                    b64decode rest with
              | Some x, Some y, Some z, Some l => Some (x :: y :: z :: l)
              | _, _, _, _ => None
              end
          | Some v3, None =>
              match Byte.of_N (v1 * 4 + v2 / 16),
                    Byte.of_N (v2 mod 16 * 16 + v3 / 4), rest with
              | Some x, Some y, EmptyString =>
                  if is_pad c4 then Some [x; y] else None
              | _, _, _ => None
              end
          | None, _ =>
              match Byte.of_N (v1 * 4 + v2 / 16), rest with
              | Some x, EmptyString =>
                  if is_pad c3 && is_pad c4 then Some [x] else None
              | _, _ => None
              end
          end
      | _, _ => None
      end
  | _ => None
  end%N.

(** A character of Base64 text: a letter, a digit, [+], [/] or [=]. *)
Definition is_b64_char (c : ascii) : bool :=
  match digit_value c with
  | Some _ => true
  | None => is_pad c
  end.

(** Provider B replied to the recipe request for [image_bytes] and the two
    hints, or to the nutrition request, with the text [reply]. *)
Definition recipes_reply (advisor : Advisor) (image_bytes : bytes)
  (fruit_name ripeness : option string) : outcome pyval :=
  recipes_content advisor (recipe_context fruit_name ripeness) 2000
    (image_url (encode_image_base64 image_bytes)).

Definition nutrition_reply (advisor : Advisor) (fruit_name ripeness : string)
  : outcome pyval :=
  nutrition_content advisor ripeness 800 fruit_name.

(** The same world with another Provider B. *)
Definition with_client (w : World) (cl : option OpenAI) : World :=
  {| client := cl;
     CLIENT := CLIENT w;
     Image_open_RGB := Image_open_RGB w;
     json_loads := json_loads w;
     float_of_str := float_of_str w;
     str_exn := str_exn w |}.

(** A word: a text that is not empty, of the letters [a] to [z] alone. *)
Definition is_word (s : string) : Prop :=
  s <> "" /\ forall_chars is_lower_az s = true.

(** A token: a text that is not empty and holds no whitespace. *)
Definition is_token (s : string) : Prop :=
  s <> "" /\ forall_chars (fun c => negb (isspace c)) s = true.

(** ** Worlds for the further examples *)

Module MoreExamples.

Import Examples.

(** A Provider B that answers the recipe request with [recipes] and the
    nutrition request with [nutrition]. *)
Definition advisor (recipes nutrition : outcome pyval) : Advisor :=
  {| recipes_content := fun _ _ _ => recipes;
     nutrition_content := fun _ _ _ => nutrition |}.

(** A Provider B that answers the recipe request with its [context], and
    the nutrition request with the ripeness and the name it was given. *)
Definition echo : Advisor :=
  {| recipes_content := fun context _ _ => Returns (PStr context);
     nutrition_content := fun ripeness _ fruit_name =>
       Returns (PStr (ripeness ++ " " ++ fruit_name)) |}.

(** The first bytes of a JPEG file. *)
Definition jpeg_header : bytes :=
  [Byte.xff; Byte.xd8; Byte.xff; Byte.xe0; Byte.x00; Byte.x10; Byte.x4a].

(** A constructor of Provider A that accepts every setting, and one that
    rejects every setting. *)
Definition roboflow_new (url key : string) : outcome InferenceHTTPClient :=
  Returns cv_two.

Definition roboflow_new_fails (url key : string) : outcome InferenceHTTPClient :=
  Raises (ExternalError "invalid api_url").

End MoreExamples.

(** * Properties *)

Import Examples.

Local Open Scope list_scope.

Arguments in_strings : simpl never.
Arguments scan_fruit : simpl never.
Arguments scan_ripeness : simpl never.

(** Closes a goal in which [H] says that an error result is a result
    known to hold no error. *)
Ltac not_an_error H := injection H as <-; discriminate.

(** ** Text *)

Lemma forall_chars_filter (keep : ascii -> bool) (s : string) :
  forall_chars keep (filter_chars keep s) = true.
Proof.
  induction s as [| c s IH]; [reflexivity |].
  simpl. destruct (keep c) eqn:Hc; [| exact IH].
  simpl. now rewrite Hc.
Qed.

Lemma forall_chars_and (p q : ascii -> bool) (s : string) :
  forall_chars p s = true -> forall_chars q s = true ->
  forall_chars (fun c => p c && q c) s = true.
Proof.
  induction s as [| c s IH]; [reflexivity |].
  simpl. intros Hp Hq.
  apply andb_prop in Hp. apply andb_prop in Hq.
  destruct Hp as [-> Hp], Hq as [-> Hq]. simpl. now apply IH.
Qed.

Lemma forall_chars_impl (p q : ascii -> bool) (s : string) :
  (forall c, p c = true -> q c = true) ->
  forall_chars p s = true -> forall_chars q s = true.
Proof.
  intros Hpq. induction s as [| c s IH]; [reflexivity |].
  simpl. intros H. apply andb_prop in H. destruct H as [Hc Hs].
  rewrite (Hpq c Hc). now apply IH.
Qed.

(** The tokens of [split] keep what holds of every character of the text. *)
Lemma split_forall_chars (p : ascii -> bool) (s : string) :
  forall_chars p s = true ->
  Forall (fun t => forall_chars p t = true) (split s).
Proof.
  induction s as [| c s IH]; [constructor |].
  simpl. intros H. apply andb_prop in H. destruct H as [Hc Hs].
  specialize (IH Hs).
  assert (Hone : forall_chars p (String c "") = true) by (simpl; now rewrite Hc).
  destruct (isspace c); [exact IH |].
  destruct (split s) as [| t ts]; [now constructor |].
  destruct s as [| c' s']; [now constructor |].
  destruct (isspace c').
  - now constructor.
  - inversion IH as [| ? ? Ht Hts]; subst. constructor; [| exact Hts].
    simpl. now rewrite Hc, Ht.
Qed.

(** A token of [split] is not empty and holds no whitespace. *)
Lemma split_tokens (s : string) :
  Forall (fun t => t <> ""
                   /\ forall_chars (fun c => negb (isspace c)) t = true)
         (split s).
Proof.
  induction s as [| c s IH]; [constructor |].
  simpl. destruct (isspace c) eqn:Hc; [exact IH |].
  assert (Hone : String c "" <> ""
                 /\ forall_chars (fun c => negb (isspace c)) (String c "") = true).
  { split; [discriminate |]. simpl. now rewrite Hc. }
  destruct (split s) as [| t ts]; [now constructor |].
  destruct s as [| c' s']; [now constructor |].
  destruct (isspace c').
  - now constructor.
  - inversion IH as [| ? ? [_ Ht] Hts]; subst. constructor; [| exact Hts].
    split; [discriminate |]. simpl. now rewrite Hc, Ht.
Qed.

Lemma in_strings_In (s : string) (l : list string) :
  in_strings s l = true -> In s l.
Proof.
  unfold in_strings. intros H.
  apply existsb_exists in H. destruct H as [t [Hin Heq]].
  apply String.eqb_eq in Heq. now subst.
Qed.

(** The builtins on the texts and numbers of the specification. *)
Example split_label : split "  banana   overripe " = ["banana"; "overripe"].
Proof. reflexivity. Qed.

Example split_blank : split "   " = [].
Proof. reflexivity. Qed.

Example strip_fences_reply :
  strip_fences (strip mango_reply) = (mango_json ++ nl)%string.
Proof. reflexivity. Qed.

Example strip_fences_twice :
  re_sub_lit_ws "```" "a ``` b```` c ``````d" = "a b` c d".
Proof. reflexivity. Qed.

(** ** Numbers *)

Lemma Qgt_compare (p q : Q) :
  match Qcompare p q with Gt => true | _ => false end = true <-> (q < p)%Q.
Proof.
  rewrite (Qgt_alt p q). destruct (Qcompare p q); split; congruence.
Qed.

Lemma Qngt_compare (p q : Q) :
  match Qcompare p q with Gt => true | _ => false end = false <-> (p <= q)%Q.
Proof.
  rewrite (Qle_alt p q). destruct (Qcompare p q); split; congruence.
Qed.

Lemma xgt_irrefl (a : xnum) : xgt a a = false.
Proof.
  destruct a; simpl; try reflexivity.
  apply Qngt_compare. apply Qle_refl.
Qed.

Lemma xgt_asym (a b : xnum) : xgt a b = true -> xgt b a = false.
Proof.
  destruct a, b; simpl; try reflexivity; try discriminate.
  rewrite Qgt_compare, Qngt_compare. apply Qlt_le_weak.
Qed.

Lemma xgt_trans (a b c : xnum) :
  xgt a b = true -> xgt b c = true -> xgt a c = true.
Proof.
  destruct a, b, c; simpl; try reflexivity; try discriminate.
  rewrite !Qgt_compare. intros H1 H2. now apply Qlt_trans with q0.
Qed.

(** [c <= b < a] gives [c < a], for a [c] that is not NaN. *)
Lemma xgt_le_trans (a b c : xnum) :
  is_nan_x c = false ->
  xgt a b = true -> xgt c b = false -> xgt a c = true.
Proof.
  destruct a, b, c; simpl; try reflexivity; try discriminate.
  rewrite !Qgt_compare, Qngt_compare. intros _ H1 H2.
  now apply Qle_lt_trans with q0.
Qed.

(** [round_half_even] gives an integer within one half of its argument. *)
Lemma round_half_even_near (q : Q) :
  (Qabs (q - inject_Z (round_half_even q)) <= 1 # 2)%Q.
Proof.
  unfold round_half_even.
  pose proof (Qfloor_le q) as Hle. pose proof (Qlt_floor q) as Hlt.
  set (fl := Qfloor q) in *.
  assert (Hsucc : (inject_Z (fl + 1) == inject_Z fl + 1)%Q).
  { rewrite inject_Z_plus. reflexivity. }
  apply Qabs_Qle_condition.
  destruct (Qcompare (q - inject_Z fl) (1 # 2)) eqn:Hcmp.
  - apply Qeq_alt in Hcmp.
    destruct (Z.even fl); [| rewrite Hsucc]; split; lra.
  - apply Qlt_alt in Hcmp. split; lra.
  - apply Qgt_alt in Hcmp. rewrite Hsucc. split; lra.
Qed.

Lemma dyadic_scale (m k e : Z) :
  (dyadic (m * k) e == inject_Z k * dyadic m e)%Q.
Proof.
  unfold dyadic. destruct e as [| p | p].
  - rewrite <- inject_Z_mult. apply inject_Z_injective. ring.
  - rewrite <- inject_Z_mult. apply inject_Z_injective. ring.
  - unfold Qeq, Qmult, inject_Z. simpl. ring.
Qed.

Lemma float_round2_two_places (c : float) :
  rounded_to_two_places c (float_round2 c).
Proof.
  unfold rounded_to_two_places, float_round2.
  destruct (Prim2SF c) as [s | s | | s m e]; try reflexivity.
  exists (round_half_even (dyadic (Zpos m * 100) e)). split; [| reflexivity].
  rewrite <- dyadic_scale. apply round_half_even_near.
Qed.

Example scale_score : py_mul_int (PFloat 0.91) 100 = Returns (PFloat 91).
Proof. vm_compute. reflexivity. Qed.

Example round_below_half : float_round2 2.675 = 2.67%float.
Proof. vm_compute. reflexivity. Qed.

Example round_half_to_even :
  float_round2 0.125 = 0.12%float /\ float_round2 0.375 = 0.38%float.
Proof. split; vm_compute; reflexivity. Qed.

Example round_keeps_sign : float_round2 (-0.001) = (-0)%float.
Proof. vm_compute. reflexivity. Qed.

Example round_large : float_round2 1234567890123456.7 = 1234567890123456.7%float.
Proof. vm_compute. reflexivity. Qed.

Example compare_int_float :
  py_gt (PFloat 0.5) (PInt 0) = Returns true
  /\ py_gt (PFloat 0.5) (PBool true) = Returns false
  /\ py_gt (PFloat nan) (PInt 0) = Returns false
  /\ py_gt (PInt 0) (PFloat nan) = Returns false
  /\ py_gt (PStr "0.5") (PInt 0) = Raises TypeError.
Proof. repeat split; vm_compute; reflexivity. Qed.

(** ** The name of the fruit: C9 *)

(** What [get_fruit_name] returns: it never raises, and the name
    [analyze_image] reads off its result is a text. *)
Lemma get_fruit_name_returns (w : World) (image_bytes : bytes) :
  exists info s,
    get_fruit_name w image_bytes = Returns info /\ name_of info = PStr s.
Proof.
  unfold get_fruit_name.
  destruct (client w) as [cl|].
  - destruct (completion_content cl FruitNamePrompt 50 image_bytes) as [content|e];
      simpl.
    + destruct content; simpl; do 2 eexists; split; reflexivity.
    + do 2 eexists; split; reflexivity.
  - simpl. do 2 eexists; split; reflexivity.
Qed.

(** C9, amended. [get_fruit_name] turns every reply text of Provider B
    into lower case, drops every character outside [[a-z\s]] and returns
    the first whitespace-delimited token of what is left, or ["unknown"]
    when nothing is left; when the request raises, or its reply is not a
    text, it returns ["unknown"] and raises nothing; the reply ["Banana!!"]
    gives ["banana"]. When Provider B is not configured it returns the
    error result ["OpenAI API not configured"]. *)
Theorem get_fruit_name_reply (w : World) (image_bytes : bytes) :
  (client w = None ->
   get_fruit_name w image_bytes
   = Returns [("error", PStr "OpenAI API not configured")])
  /\ (forall cl,
        client w = Some cl ->
        (forall reply,
           completion_content cl FruitNamePrompt 50 image_bytes
           = Returns (PStr reply) ->
           get_fruit_name w image_bytes
           = Returns [("fruit_name",
                       PStr match split (re_sub_not_az_ws (lower (strip reply))) with
                            | first :: _ => first
                            | [] => "unknown"
                            end)]
           /\ (re_sub_not_az_ws (lower (strip reply)) = "" ->
               get_fruit_name w image_bytes
               = Returns [("fruit_name", PStr "unknown")])
           /\ (reply = "Banana!!" ->
               get_fruit_name w image_bytes
               = Returns [("fruit_name", PStr "banana")]))
        /\ (forall e,
              completion_content cl FruitNamePrompt 50 image_bytes = Raises e ->
              get_fruit_name w image_bytes
              = Returns [("fruit_name", PStr "unknown")])
        /\ (forall v,
              completion_content cl FruitNamePrompt 50 image_bytes = Returns v ->
              (forall s, v <> PStr s) ->
              get_fruit_name w image_bytes
              = Returns [("fruit_name", PStr "unknown")])).
Proof.
  unfold get_fruit_name. split.
  - intros ->. reflexivity.
  - intros cl ->. split; [| split].
    + intros reply Hreply. rewrite Hreply. cbn [bind py_strip try_except].
      split; [reflexivity |]. split.
      * intros Hempty. now rewrite Hempty.
      * intros ->. reflexivity.
    + intros e ->. reflexivity.
    + intros v -> Hv. destruct v; try reflexivity. now destruct (Hv s).
Qed.

(** The example of the specification: the reply ["Banana!!"]. *)
Lemma get_fruit_name_reply_witness :
  client (world (Some provider_B) None) = Some provider_B
  /\ completion_content provider_B FruitNamePrompt 50 photo = Returns (PStr "Banana!!")
  /\ get_fruit_name (world (Some provider_B) None) photo
     = Returns [("fruit_name", PStr "banana")].
Proof.
  split; [reflexivity |]. split; [reflexivity |].
  destruct (get_fruit_name_reply (world (Some provider_B) None) photo)
    as [_ Hconfigured].
  destruct (Hconfigured provider_B eq_refl) as [Hreply _].
  destruct (Hreply "Banana!!" eq_refl) as (_ & _ & Hbanana).
  exact (Hbanana eq_refl).
Defined.

(** C9 as stated fails where Provider B is not configured: no name can be
    had, and [get_fruit_name] returns an error result, not ["unknown"]. *)
Lemma get_fruit_name_reply_counterexample :
  client (world None None) = None
  /\ get_fruit_name (world None None) photo
     = Returns [("error", PStr "OpenAI API not configured")]
  /\ get_fruit_name (world None None) photo
     <> Returns [("fruit_name", PStr "unknown")].
Proof.
  split; [reflexivity |]. split; [reflexivity |]. discriminate.
Qed.

(** The name [get_fruit_name] extracts from a reply is a word: not empty,
    of the letters [a] to [z] alone. *)
Lemma fruit_name_word (reply : string) :
  forall name,
    name = match split (re_sub_not_az_ws (lower (strip reply))) with
           | first :: _ => first
           | [] => "unknown"
           end ->
    name <> "" /\ forall_chars is_lower_az name = true.
Proof.
  intros name ->.
  pose proof (split_tokens (re_sub_not_az_ws (lower (strip reply)))) as Htok.
  pose proof (split_forall_chars _ _
                (forall_chars_filter (fun c => is_lower_az c || isspace c)
                   (lower (strip reply)))) as Hkeep.
  fold (re_sub_not_az_ws (lower (strip reply))) in Hkeep.
  destruct (split (re_sub_not_az_ws (lower (strip reply)))) as [| first rest].
  - split; [discriminate | reflexivity].
  - inversion Htok as [| ? ? [Hne Hns] _]; subst.
    inversion Hkeep as [| ? ? Hk _]; subst.
    split; [exact Hne |].
    apply forall_chars_impl with
      (p := fun c => (is_lower_az c || isspace c) && negb (isspace c)).
    + intros c H. apply andb_prop in H. destruct H as [H1 H2].
      destruct (isspace c); [discriminate |]. now rewrite orb_false_r in H1.
    + now apply forall_chars_and.
Qed.

(** ** The ripeness parser: C7, C8, C10 *)

Lemma scan_ripeness_stage (t : string) : In (scan_ripeness t) ripeness_stages.
Proof.
  unfold scan_ripeness, ripeness_stages.
  destruct (contains "unripe" t); [simpl; auto |].
  destruct (contains "overripe" t); [simpl; auto |].
  destruct (contains "ripe" t); simpl; auto.
Qed.

(** The fruit scan returns the first fruit of the list that occurs in the
    text. *)
Lemma scan_fruit_find (fruits : list string) (text_lower : string) :
  scan_fruit fruits text_lower
  = match find (fun fruit => contains fruit text_lower) fruits with
    | Some fruit => fruit
    | None => "unknown"
    end.
Proof.
  induction fruits as [| fruit rest IH]; [reflexivity |].
  unfold scan_fruit; fold scan_fruit. cbn [find].
  destruct (contains fruit text_lower); [reflexivity | exact IH].
Qed.

(** What [analyze_ripeness_with_openai] returns: it never raises; its
    result is an error result or a parsed result. *)
Lemma analyze_ripeness_returns (w : World) (image_bytes : bytes) :
  exists r,
    analyze_ripeness_with_openai w image_bytes = Returns r
    /\ ((is_error r = true /\ dict_mem "error" r = true)
        \/ (parsed_result r /\ dict_mem "error" r = false)).
Proof.
  assert (Herr : forall msg,
    exists r, Returns [("error", PStr msg)] = Returns r
      /\ ((is_error r = true /\ dict_mem "error" r = true)
          \/ (parsed_result r /\ dict_mem "error" r = false))).
  { intros msg. eexists; split; [reflexivity |]. left. split; reflexivity. }
  unfold analyze_ripeness_with_openai.
  destruct (client w) as [cl|]; [| apply Herr].
  destruct (completion_content cl RipenessPrompt 200 image_bytes) as [content|e];
    [| apply Herr].
  destruct content as [| | | | s | |]; simpl; try apply Herr.
  set (text := strip_fences (strip s)).
  assert (Hraise : forall e : exn,
    exists r,
      try_except
        (if is_JSONDecodeError e
         then Returns [("fruit_name", PStr (scan_fruit common_fruits (lower text)));
                       ("ripeness", PStr (scan_ripeness (lower text)));
                       ("confidence", PFloat 70); ("source", PStr "openai")]
         else Raises e)
        (fun e0 => Returns [("error", PStr (str_exn w e0))]) = Returns r
      /\ ((is_error r = true /\ dict_mem "error" r = true)
          \/ (parsed_result r /\ dict_mem "error" r = false))).
  { intros e. destruct e; simpl; try apply Herr.
    eexists; split; [reflexivity |]. right. split; [| reflexivity].
    do 3 eexists; split; [reflexivity |]. apply scan_ripeness_stage. }
  destruct (json_loads w text) as [result|e]; simpl; [| apply Hraise].
  destruct result as [| | | | | | d]; simpl; try apply Herr.
  destruct (dict_get_default d "fruit_name" (PStr "unknown")); simpl;
    try apply Herr.
  destruct (dict_get_default d "ripeness" (PStr "unknown")) as [| | | | rp | |];
    simpl; try apply Herr.
  destruct (py_float w (dict_get_default d "confidence" (PFloat 75)))
    as [c|e]; simpl; [| apply Hraise].
  eexists; split; [reflexivity |]. right. split; [| reflexivity].
  do 3 eexists; split; [reflexivity |].
  destruct (in_strings (lower rp) ["unripe"; "ripe"; "overripe"]) eqn:Hin.
  - apply in_strings_In in Hin. unfold ripeness_stages.
    destruct Hin as [H | [H | [H | []]]]; rewrite <- H; simpl; auto.
  - unfold ripeness_stages. simpl. auto.
Qed.

Section Parser.

(** Provider B replied to the ripeness request for [image_bytes] with the
    text [reply]. *)
Variable w : World.
Variable image_bytes : bytes.
Variable reply : string.
Hypothesis Hreply : provider_B_replies w RipenessPrompt 200 image_bytes reply.

(** What the handler for text that is not JSON returns. *)
Lemma analyze_ripeness_not_json :
  json_loads w (json_text reply) = Raises JSONDecodeError ->
  analyze_ripeness_with_openai w image_bytes
  = Returns [("fruit_name", PStr (scan_fruit common_fruits (lower (json_text reply))));
             ("ripeness", PStr (scan_ripeness (lower (json_text reply))));
             ("confidence", PFloat 70);
             ("source", PStr "openai")].
Proof.
  intros Hjson. destruct Hreply as (cl & Hcl & Hcontent).
  unfold analyze_ripeness_with_openai. rewrite Hcl, Hcontent.
  cbn [bind py_strip]. fold (json_text reply).
  rewrite Hjson. reflexivity.
Qed.

(** C8, amended. For every reply text of Provider B that [json.loads]
    rejects, [analyze_ripeness_with_openai] finds the ripeness in the
    lower-cased text by the substrings ["unripe"], ["overripe"], ["ripe"],
    in that order of priority (["unknown"] when none occurs), takes as
    fruit name the first fruit of the fixed list, in the order of the list,
    that occurs in the text (["unknown"] when none occurs), and returns
    them with confidence 70.0 and source ["openai"]. *)
Theorem analyze_ripeness_keyword_scan :
  json_loads w (json_text reply) = Raises JSONDecodeError ->
  exists fruit_name ripeness,
    analyze_ripeness_with_openai w image_bytes
    = Returns [("fruit_name", PStr fruit_name); ("ripeness", PStr ripeness);
               ("confidence", PFloat 70); ("source", PStr "openai")]
    /\ ripeness
       = (if contains "unripe" (lower (json_text reply)) then "unripe"
          else if contains "overripe" (lower (json_text reply)) then "overripe"
          else if contains "ripe" (lower (json_text reply)) then "ripe"
          else "unknown")
    /\ fruit_name
       = match find (fun fruit => contains fruit (lower (json_text reply)))
                 ["apple"; "banana"; "mango"; "strawberry"; "orange";
                  "grape"; "pear"; "peach"; "plum"; "cherry"] with
         | Some fruit => fruit
         | None => "unknown"
         end.
Proof.
  intros Hjson.
  exists (scan_fruit common_fruits (lower (json_text reply))),
         (scan_ripeness (lower (json_text reply))).
  split; [| split].
  - now apply analyze_ripeness_not_json.
  - reflexivity.
  - apply scan_fruit_find.
Qed.

(** What the branch for decoded JSON returns or raises. *)
Lemma analyze_ripeness_json_branch (v : pyval) :
  json_loads w (json_text reply) = Returns v ->
  analyze_ripeness_with_openai w image_bytes
  = try_except
      (bind (py_get v "fruit_name" (PStr "unknown")) (fun fruit_name0 =>
       bind (py_lower fruit_name0) (fun fruit_name =>
       bind (py_get v "ripeness" (PStr "unknown")) (fun ripeness0 =>
       bind (py_lower ripeness0) (fun ripeness =>
       bind (py_get v "confidence" (PFloat 75)) (fun confidence0 =>
       bind (py_float w confidence0) (fun confidence =>
       Returns [("fruit_name", PStr fruit_name);
                ("ripeness",
                 PStr (if negb (in_strings ripeness ["unripe"; "ripe"; "overripe"])
                       then "ripe" else ripeness));
                ("confidence", PFloat (float_round2 confidence));
                ("source", PStr "openai")])))))))
      (fun e => Returns [("error", PStr (str_exn w e))]).
Proof.
  intros Hjson. destruct Hreply as (cl & Hcl & Hcontent).
  unfold analyze_ripeness_with_openai. rewrite Hcl, Hcontent.
  cbn [bind py_strip]. fold (json_text reply).
  rewrite Hjson. cbn [bind].
  assert (Hfloat : forall x, is_JSONDecodeError
            match py_float w x with Returns _ => TypeError | Raises e => e end
            = false).
  { intros x. unfold py_float. destruct x; try reflexivity.
    - unfold float_of_int. now destruct (binary_normalize prec emax z 0 false).
    - now destruct (float_of_str w s). }
  destruct v as [| | | | | | d]; try reflexivity.
  cbn [py_get bind].
  destruct (dict_get_default d "fruit_name" (PStr "unknown")); try reflexivity.
  cbn [py_lower bind].
  destruct (dict_get_default d "ripeness" (PStr "unknown")); try reflexivity.
  cbn [py_lower bind].
  specialize (Hfloat (dict_get_default d "confidence" (PFloat 75))).
  destruct (py_float w (dict_get_default d "confidence" (PFloat 75))) as [c|e];
    [reflexivity |].
  cbn [bind try_except_only]. now rewrite Hfloat.
Qed.

(** C7, amended. For every reply text of Provider B that [json.loads]
    decodes, once the code fences are stripped, to an object whose
    [fruit_name] and [ripeness], where present, are texts and whose
    [confidence], where present, converts to a [float],
    [analyze_ripeness_with_openai] returns the name and the ripeness in lower
    case, the ripeness replaced by ["ripe"] when it is none of ["unripe"],
    ["ripe"], ["overripe"], and the confidence as a [float], 75.0 for a
    missing key. *)
Theorem analyze_ripeness_json (d : pydict) (fruit_name ripeness : string)
  (confidence : float) :
  json_loads w (json_text reply) = Returns (PDict d) ->
  dict_get_default d "fruit_name" (PStr "unknown") = PStr fruit_name ->
  dict_get_default d "ripeness" (PStr "unknown") = PStr ripeness ->
  py_float w (dict_get_default d "confidence" (PFloat 75)) = Returns confidence ->
  analyze_ripeness_with_openai w image_bytes
  = Returns [("fruit_name", PStr (lower fruit_name));
             ("ripeness",
              PStr (if in_strings (lower ripeness) ["unripe"; "ripe"; "overripe"]
                    then lower ripeness else "ripe"));
             ("confidence", PFloat (float_round2 confidence));
             ("source", PStr "openai")]
  /\ (dict_get d "confidence" = None -> confidence = 75%float)
  /\ (dict_get d "fruit_name" = None -> fruit_name = "unknown")
  /\ (dict_get d "ripeness" = None -> ripeness = "unknown").
Proof.
  intros Hjson Hname Hripe Hconf. split; [| split; [| split]].
  - rewrite (analyze_ripeness_json_branch (PDict d) Hjson).
    cbn [py_get bind]. rewrite Hname, Hripe, Hconf. cbn [py_lower bind try_except].
    now destruct (in_strings (lower ripeness) ["unripe"; "ripe"; "overripe"]).
  - intros Hnone. unfold dict_get_default in Hconf. rewrite Hnone in Hconf.
    now inversion Hconf.
  - intros Hnone. unfold dict_get_default in Hname. rewrite Hnone in Hname.
    now inversion Hname.
  - intros Hnone. unfold dict_get_default in Hripe. rewrite Hnone in Hripe.
    now inversion Hripe.
Qed.

(** C10. For every reply text of Provider B that [json.loads] decodes, a
    successful result of [analyze_ripeness_with_openai] carries the source
    ["openai"] and, as confidence, the [float] read from the reply rounded
    to two decimal places. *)
Theorem analyze_ripeness_json_source (v : pyval) (r : pydict) :
  json_loads w (json_text reply) = Returns v ->
  analyze_ripeness_with_openai w image_bytes = Returns r ->
  dict_mem "error" r = false ->
  dict_get r "source" = Some (PStr "openai")
  /\ exists d confidence,
       v = PDict d
       /\ py_float w (dict_get_default d "confidence" (PFloat 75)) = Returns confidence
       /\ dict_get r "confidence" = Some (PFloat (float_round2 confidence))
       /\ rounded_to_two_places confidence (float_round2 confidence).
Proof.
  intros Hjson Hr Hok.
  rewrite (analyze_ripeness_json_branch v Hjson) in Hr.
  destruct v as [| | | | | | d]; cbn [py_get bind try_except] in Hr;
    try not_an_error Hr.
  destruct (dict_get_default d "fruit_name" (PStr "unknown"));
    cbn [py_lower bind try_except] in Hr; try not_an_error Hr.
  destruct (dict_get_default d "ripeness" (PStr "unknown"));
    cbn [py_lower bind try_except] in Hr; try not_an_error Hr.
  destruct (py_float w (dict_get_default d "confidence" (PFloat 75)))
    as [c|e] eqn:Hc; cbn [bind try_except] in Hr; try not_an_error Hr.
  injection Hr as <-. split; [reflexivity |].
  exists d, c. split; [reflexivity |]. split; [exact Hc |].
  split; [reflexivity |]. apply float_round2_two_places.
Qed.

End Parser.

(** The example of the specification: prose about an unripe mango. *)
Lemma analyze_ripeness_keyword_scan_witness :
  provider_B_replies (world (Some provider_B_prose) None) RipenessPrompt 200 photo
    "This mango looks quite unripe and firm."
  /\ json_loads (world (Some provider_B_prose) None)
       (json_text "This mango looks quite unripe and firm.")
     = Raises JSONDecodeError
  /\ analyze_ripeness_with_openai (world (Some provider_B_prose) None) photo
     = Returns [("fruit_name", PStr "mango"); ("ripeness", PStr "unripe");
                ("confidence", PFloat 70); ("source", PStr "openai")].
Proof.
  assert (HB : provider_B_replies (world (Some provider_B_prose) None)
                 RipenessPrompt 200 photo
                 "This mango looks quite unripe and firm.").
  { eexists. split; reflexivity. }
  split; [exact HB |]. split; [reflexivity |].
  destruct (analyze_ripeness_keyword_scan (world (Some provider_B_prose) None)
              photo "This mango looks quite unripe and firm." HB eq_refl)
    as (fruit_name & ripeness & Hres & -> & ->).
  exact Hres.
Defined.

(** C8 as stated fails where the text names two fruits of the list in
    another order than the list: the reply names the banana before the
    apple, the fruit first in text order is the banana, and the code
    returns the apple, which is first in the list. *)
Lemma analyze_ripeness_keyword_scan_counterexample :
  provider_B_replies (world (Some (provider_B_saying two_fruits_reply)) None)
    RipenessPrompt 200 photo two_fruits_reply
  /\ json_loads (world (Some (provider_B_saying two_fruits_reply)) None)
       (json_text two_fruits_reply)
     = Raises JSONDecodeError
  /\ first_fruit_in_text_order (lower (json_text two_fruits_reply)) = "banana"
  /\ analyze_ripeness_with_openai
       (world (Some (provider_B_saying two_fruits_reply)) None) photo
     = Returns [("fruit_name", PStr "apple"); ("ripeness", PStr "ripe");
                ("confidence", PFloat 70); ("source", PStr "openai")]
  /\ ~ (exists r,
          analyze_ripeness_with_openai
            (world (Some (provider_B_saying two_fruits_reply)) None) photo
          = Returns r
          /\ dict_get r "fruit_name"
             = Some (PStr (first_fruit_in_text_order
                             (lower (json_text two_fruits_reply))))).
Proof.
  split; [eexists; split; reflexivity |].
  split; [reflexivity |]. split; [reflexivity |]. split; [reflexivity |].
  intros [r [Hr Hname]]. vm_compute in Hr. injection Hr as <-.
  vm_compute in Hname. discriminate.
Qed.

(** The example of the specification: the fenced reply with ["Mango"],
    ["ROTTEN"] and ["88"] gives ["mango"], ["ripe"] and 88.0. *)
Lemma analyze_ripeness_json_witness :
  provider_B_replies (world (Some provider_B) None) RipenessPrompt 200 photo
    mango_reply
  /\ json_loads (world (Some provider_B) None) (json_text mango_reply)
     = Returns mango_value
  /\ py_float (world (Some provider_B) None) (PStr "88") = Returns 88%float
  /\ analyze_ripeness_with_openai (world (Some provider_B) None) photo
     = Returns [("fruit_name", PStr "mango"); ("ripeness", PStr "ripe");
                ("confidence", PFloat 88); ("source", PStr "openai")].
Proof.
  assert (HB : provider_B_replies (world (Some provider_B) None)
                 RipenessPrompt 200 photo mango_reply).
  { eexists. split; reflexivity. }
  split; [exact HB |]. split; [reflexivity |]. split; [reflexivity |].
  exact (proj1 (analyze_ripeness_json (world (Some provider_B) None) photo
                  mango_reply HB
                  [("fruit_name", PStr "Mango"); ("ripeness", PStr "ROTTEN");
                   ("confidence", PStr "88")]
                  "Mango" "ROTTEN" 88%float
                  eq_refl eq_refl eq_refl eq_refl)).
Defined.

(** C7 as stated fails for text that [json.loads] decodes to something the
    branch cannot read: a list, an object whose ripeness is [null], an
    object whose confidence is a word. Each of the three replies decodes,
    and each gives an error result, without ripeness. *)
Lemma analyze_ripeness_json_counterexample :
  (json_loads (world (Some (provider_B_saying "[]")) None) (json_text "[]")
   = Returns (PList [])
   /\ exists msg,
        analyze_ripeness_with_openai (world (Some (provider_B_saying "[]")) None)
          photo
        = Returns [("error", PStr msg)])
  /\ (json_loads (world (Some (provider_B_saying null_ripeness_json)) None)
        (json_text null_ripeness_json)
      = Returns null_ripeness_value
      /\ exists msg,
           analyze_ripeness_with_openai
             (world (Some (provider_B_saying null_ripeness_json)) None) photo
           = Returns [("error", PStr msg)])
  /\ (json_loads (world (Some (provider_B_saying worded_confidence_json)) None)
        (json_text worded_confidence_json)
      = Returns worded_confidence_value
      /\ exists msg,
           analyze_ripeness_with_openai
             (world (Some (provider_B_saying worded_confidence_json)) None) photo
           = Returns [("error", PStr msg)])
  /\ ~ (forall w image_bytes reply v,
          provider_B_replies w RipenessPrompt 200 image_bytes reply ->
          json_loads w (json_text reply) = Returns v ->
          exists r ripeness,
            analyze_ripeness_with_openai w image_bytes = Returns r
            /\ dict_get r "ripeness" = Some (PStr ripeness)).
Proof.
  split; [split; [reflexivity | eexists; reflexivity] |].
  split; [split; [reflexivity | eexists; reflexivity] |].
  split; [split; [reflexivity | eexists; reflexivity] |].
  intros H.
  destruct (H (world (Some (provider_B_saying "[]")) None) photo "[]" (PList []))
    as (r & ripeness & Hr & Hripe).
  - eexists. split; reflexivity.
  - reflexivity.
  - vm_compute in Hr. injection Hr as <-. vm_compute in Hripe. discriminate.
Qed.

(** The fenced reply of the specification: its result is tagged
    ["openai"]. *)
Lemma analyze_ripeness_json_source_witness :
  provider_B_replies (world (Some provider_B) None) RipenessPrompt 200 photo
    mango_reply
  /\ json_loads (world (Some provider_B) None) (json_text mango_reply)
     = Returns mango_value
  /\ analyze_ripeness_with_openai (world (Some provider_B) None) photo
     = Returns [("fruit_name", PStr "mango"); ("ripeness", PStr "ripe");
                ("confidence", PFloat 88); ("source", PStr "openai")]
  /\ dict_get [("fruit_name", PStr "mango"); ("ripeness", PStr "ripe");
               ("confidence", PFloat 88); ("source", PStr "openai")] "source"
     = Some (PStr "openai").
Proof.
  assert (HB : provider_B_replies (world (Some provider_B) None)
                 RipenessPrompt 200 photo mango_reply).
  { eexists. split; reflexivity. }
  split; [exact HB |]. split; [reflexivity |]. split; [reflexivity |].
  exact (proj1 (analyze_ripeness_json_source (world (Some provider_B) None) photo
                  mango_reply HB mango_value
                  [("fruit_name", PStr "mango"); ("ripeness", PStr "ripe");
                   ("confidence", PFloat 88); ("source", PStr "openai")]
                  eq_refl eq_refl eq_refl)).
Defined.

(** ** The scan of [max] *)

Lemma is_prediction_dict (p : pyval) :
  is_prediction p = true ->
  exists d x,
    p = PDict d /\ num_val (score_of p) = Some x /\ score_val p = x
    /\ is_nan_x x = false.
Proof.
  unfold is_prediction, score_val. destruct p; try discriminate.
  intros H. apply andb_prop in H. destruct H as [H _].
  destruct (num_val (score_of (PDict d))) as [x|] eqn:Hx; [| discriminate].
  exists d, x. repeat split; try reflexivity.
  now apply negb_true_iff in H.
Qed.

Lemma confidence_key_prediction (p : pyval) :
  is_prediction p = true -> confidence_key p = Returns (score_of p).
Proof.
  intros H. destruct (is_prediction_dict p H) as (d & x & -> & _). reflexivity.
Qed.

Lemma py_gt_scores (p q : pyval) :
  is_prediction p = true -> is_prediction q = true ->
  py_gt (score_of p) (score_of q) = Returns (xgt (score_val p) (score_val q)).
Proof.
  intros Hp Hq.
  destruct (is_prediction_dict p Hp) as (dp & x & _ & Hx & Hvx & _).
  destruct (is_prediction_dict q Hq) as (dq & y & _ & Hy & Hvy & _).
  unfold py_gt. rewrite Hx, Hy, Hvx, Hvy. reflexivity.
Qed.

(** The scan keeps its invariant: the running maximum [m] is greater than
    everything in [before] and nothing seen since, in [mid], is greater
    than [m]. *)
Lemma max_scan_first_maximum (items : list pyval) :
  forall (before : list pyval) (m : pyval) (mid : list pyval),
    Forall (fun p => is_prediction p = true) (before ++ m :: mid ++ items) ->
    (forall p, In p before -> xgt (score_val m) (score_val p) = true) ->
    (forall p, In p mid -> xgt (score_val p) (score_val m) = false) ->
    exists top,
      max_scan confidence_key m (score_of m) items = Returns top
      /\ first_maximum (before ++ m :: mid ++ items) top.
Proof.
  induction items as [| x items IH]; intros before m mid Hall Hbefore Hmid.
  - exists m. split; [reflexivity |].
    exists before, (mid ++ []). split; [reflexivity |]. split; [exact Hbefore |].
    intros p Hp. apply in_app_or in Hp. destruct Hp as [Hp | [<- | Hp]].
    + apply xgt_asym. now apply Hbefore.
    + apply xgt_irrefl.
    + rewrite app_nil_r in Hp. now apply Hmid.
  - assert (Hm : is_prediction m = true).
    { rewrite Forall_forall in Hall. apply Hall. apply in_or_app. right. now left. }
    assert (Hx : is_prediction x = true).
    { rewrite Forall_forall in Hall. apply Hall. apply in_or_app. right. right.
      apply in_or_app. right. now left. }
    cbn [max_scan]. rewrite (confidence_key_prediction x Hx). cbn [bind].
    rewrite (py_gt_scores x m Hx Hm). cbn [bind].
    destruct (xgt (score_val x) (score_val m)) eqn:Hgt.
    + destruct (IH (before ++ m :: mid) x []) as [top [Htop Hfirst]].
      * rewrite <- app_assoc. exact Hall.
      * intros p Hp. apply in_app_or in Hp. destruct Hp as [Hp | [<- | Hp]].
        -- apply xgt_trans with (score_val m); [exact Hgt | now apply Hbefore].
        -- exact Hgt.
        -- apply xgt_le_trans with (score_val m); [| exact Hgt | now apply Hmid].
           assert (Hpp : is_prediction p = true).
           { rewrite Forall_forall in Hall. apply Hall. apply in_or_app. right.
             right. apply in_or_app. now left. }
           destruct (is_prediction_dict p Hpp) as (_ & y & _ & _ & -> & Hy).
           exact Hy.
      * intros p [].
      * exists top. split; [exact Htop |].
        rewrite <- app_assoc in Hfirst. exact Hfirst.
    + destruct (IH before m (mid ++ [x])) as [top [Htop Hfirst]].
      * rewrite <- app_assoc. exact Hall.
      * exact Hbefore.
      * intros p Hp. apply in_app_or in Hp. destruct Hp as [Hp | [<- | []]].
        -- now apply Hmid.
        -- exact Hgt.
      * exists top. split; [exact Htop |].
        rewrite <- app_assoc in Hfirst. exact Hfirst.
Qed.

(** [max] over a list of predictions returns its first maximum. *)
Lemma py_max_first_maximum (preds : list pyval) :
  preds <> [] ->
  forallb is_prediction preds = true ->
  exists top,
    py_max (PList preds) confidence_key = Returns top
    /\ first_maximum preds top
    /\ is_prediction top = true.
Proof.
  intros Hne Hall. rewrite forallb_forall in Hall.
  destruct preds as [| p rest]; [contradiction |].
  assert (Hp : is_prediction p = true) by (apply Hall; now left).
  destruct (max_scan_first_maximum rest [] p []) as [top [Htop Hfirst]].
  - apply Forall_forall. exact Hall.
  - intros q [].
  - intros q [].
  - exists top. unfold py_max. cbn [py_iter bind].
    rewrite (confidence_key_prediction p Hp). cbn [bind].
    split; [exact Htop |]. split; [exact Hfirst |].
    destruct Hfirst as (before & after & Heq & _). apply Hall.
    simpl in Heq. rewrite Heq. apply in_or_app. right. now left.
Qed.

Lemma scaled_confidence (p : pyval) :
  is_prediction p = true ->
  exists scaled confidence,
    py_mul_int (score_of p) 100 = Returns scaled
    /\ py_round2 scaled = Returns confidence.
Proof.
  intros Hp. destruct (is_prediction_dict p Hp) as (d & x & _ & Hx & _).
  destruct (score_of p) as [| b | z | f | | |]; try discriminate.
  - do 2 eexists. split; reflexivity.
  - do 2 eexists. split; reflexivity.
  - do 2 eexists. split; reflexivity.
Qed.

(** ** The report branch and the fallback *)

Lemma if_Returns {A : Type} (b : bool) (x y : A) :
  (if b then Returns x else Returns y) = Returns (if b then x else y).
Proof. now destruct b. Qed.

(** The ripeness stage the report branch derives from a class label. *)
Lemma stage_of_label (raw_class : pyval) :
  (if py_ne_str raw_class "unknown"
   then bind (py_split raw_class) (fun tokens => py_last tokens)
   else Returns "unknown")
  = match last_token raw_class with
    | Some stage => Returns stage
    | None =>
        Raises (match raw_class with PStr _ => IndexError | _ => AttributeError end)
    end.
Proof.
  destruct raw_class as [| | | | s | |]; simpl; try reflexivity.
  destruct (String.eqb s "unknown") eqn:Heq; simpl.
  - apply String.eqb_eq in Heq. subst s. reflexivity.
  - unfold py_last. destruct (last_opt (split s)); reflexivity.
Qed.

(** A report of the report branch: its winner, the stage from the
    winner's label, the confidence from the winner's score. *)
Lemma cv_report_returns (fruit_name preds : pyval) (d : pydict) :
  cv_report fruit_name preds = Returns d ->
  exists top stage scaled confidence,
    py_max preds confidence_key = Returns top
    /\ last_token (label_of top) = Some stage
    /\ py_mul_int (score_of top) 100 = Returns scaled
    /\ py_round2 scaled = Returns confidence
    /\ is_number confidence = true
    /\ d = [("fruit_name", fruit_name); ("ripeness", PStr stage);
            ("confidence", confidence); ("source", PStr "cv_model")].
Proof.
  unfold cv_report. intros H.
  destruct (py_max preds confidence_key) as [top|e]; simpl in H; [| discriminate].
  destruct top as [| | | | | | td]; simpl in H; try discriminate.
  rewrite stage_of_label in H.
  destruct (last_token (dict_get_default td "class" (PStr "unknown")))
    as [stage|] eqn:Hstage; simpl in H; [| discriminate].
  destruct (py_mul_int (dict_get_default td "confidence" (PInt 0)) 100)
    as [scaled|e] eqn:Hmul; simpl in H; [| discriminate].
  destruct (py_round2 scaled) as [confidence|e] eqn:Hround; simpl in H;
    [| discriminate].
  exists (PDict td), stage, scaled, confidence. simpl.
  repeat split; try assumption.
  - destruct scaled; simpl in Hround; inversion Hround; reflexivity.
  - now inversion H.
Qed.

(** Whether the report branch raises, and what, does not depend on the
    fruit name. *)
Lemma cv_report_raises_any (fruit_name fruit_name' preds : pyval) (e : exn) :
  cv_report fruit_name preds = Raises e ->
  cv_report fruit_name' preds = Raises e.
Proof.
  unfold cv_report.
  destruct (py_max preds confidence_key) as [top|e0]; cbn [bind]; [| trivial].
  destruct (py_get top "class" (PStr "unknown")) as [raw|e0]; cbn [bind]; [| trivial].
  destruct (if py_ne_str raw "unknown"
            then bind (py_split raw) (fun tokens => py_last tokens)
            else Returns "unknown") as [stage|e0]; cbn [bind]; [| trivial].
  destruct (py_get top "confidence" (PInt 0)) as [score|e0]; cbn [bind]; [| trivial].
  destruct (py_mul_int score 100) as [scaled|e0]; cbn [bind]; [| trivial].
  destruct (py_round2 scaled) as [conf|e0]; cbn [bind]; [discriminate | trivial].
Qed.

Lemma cv_report_shape (n : string) (preds : pyval) (d : pydict) :
  cv_report (PStr n) preds = Returns d ->
  is_report d = true /\ is_error d = false.
Proof.
  intros H. apply cv_report_returns in H.
  destruct H as (top & stage & scaled & conf & _ & _ & _ & _ & Hnum & ->).
  simpl. now rewrite Hnum.
Qed.

(** The fallback result is a report when Provider B's ripeness analysis
    succeeded and an error result when it failed. *)
Lemma fallback_parsed (n : string) (r : pydict) (source msg : string) :
  parsed_result r ->
  dict_mem "error" r = false ->
  exists ripeness confidence,
    fallback (PStr n) r source msg
    = [("fruit_name", PStr n); ("ripeness", PStr ripeness);
       ("confidence", PFloat confidence); ("source", PStr source)]
    /\ In ripeness ripeness_stages.
Proof.
  intros [fn [rp [c [-> Hin]]]] _. exists rp, c. split; [reflexivity | exact Hin].
Qed.

Lemma fallback_error (n : string) (r : pydict) (source msg : string) :
  dict_mem "error" r = true ->
  fallback (PStr n) r source msg = error_result msg.
Proof. unfold fallback. now intros ->. Qed.

Lemma fallback_shape (n : string) (r : pydict) (source msg : string) :
  (is_error r = true /\ dict_mem "error" r = true)
  \/ (parsed_result r /\ dict_mem "error" r = false) ->
  xorb (is_report (fallback (PStr n) r source msg))
       (is_error (fallback (PStr n) r source msg)) = true.
Proof.
  intros [[_ H] | [Hp H]].
  - now rewrite (fallback_error n r source msg H).
  - destruct (fallback_parsed n r source msg Hp H) as [rp [c [-> _]]]. reflexivity.
Qed.

(** ** The resolver: C1 to C6 *)

Section Resolver.

(** One run of [analyze_image]: a world and the bytes of an image. *)
Variable w : World.
Variable image_bytes : bytes.

(** [analyze_image] with the two calls to Provider B named. *)
Lemma analyze_image_unfold :
  exists info n r,
    get_fruit_name w image_bytes = Returns info
    /\ name_of info = PStr n
    /\ analyze_ripeness_with_openai w image_bytes = Returns r
    /\ analyze_image w image_bytes =
       match CLIENT w with
       | None =>
           Returns (fallback (PStr n) r "openai_primary" "OpenAI analysis failed")
       | Some cv =>
           try_except (cv_attempt w cv (PStr n) image_bytes)
             (fun e => Returns
                (fallback (PStr n) r "openai_fallback"
                   ("CV model error and OpenAI fallback failed: " ++ str_exn w e)%string))
       end.
Proof.
  destruct (get_fruit_name_returns w image_bytes) as [info [n [Hinfo Hn]]].
  destruct (analyze_ripeness_returns w image_bytes) as [r [Hr _]].
  exists info, n, r. repeat split; try assumption.
  unfold analyze_image. rewrite Hinfo. cbn [bind]. fold (name_of info). rewrite Hn.
  unfold fallback, error_result.
  destruct (CLIENT w) as [cv|].
  - destruct (cv_attempt w cv (PStr n) image_bytes); cbn [try_except];
      [reflexivity |].
    rewrite Hr. cbn [bind]. apply if_Returns.
  - rewrite Hr. cbn [bind]. apply if_Returns.
Qed.

Lemma cv_attempt_raises (cv : InferenceHTTPClient)
  (fruit_name : pyval) (e : exn) :
  provider_A_raises w cv image_bytes e ->
  cv_attempt w cv fruit_name image_bytes = Raises e.
Proof.
  unfold cv_attempt. intros [H | [image [Himg H]]].
  - now rewrite H.
  - rewrite Himg. cbn [bind]. now rewrite H.
Qed.

Lemma cv_attempt_raises_any (cv : InferenceHTTPClient)
  (fruit_name fruit_name' : pyval) (e : exn) :
  cv_attempt w cv fruit_name image_bytes = Raises e ->
  cv_attempt w cv fruit_name' image_bytes = Raises e.
Proof.
  unfold cv_attempt.
  destruct (Image_open_RGB w image_bytes) as [image|e0]; cbn [bind]; [| trivial].
  destruct (infer cv (resize image (640, 640)%nat) "fruit-ripeness-unjex/2")
    as [result|e0]; cbn [bind]; [| trivial].
  destruct (py_get result "predictions" (PList [])) as [preds|e0]; cbn [bind];
    [| trivial].
  destruct (py_truthy preds); cbn [negb].
  - apply cv_report_raises_any.
  - destruct (analyze_ripeness_returns w image_bytes) as [r [-> _]]. cbn [bind].
    destruct (dict_mem "error" r); discriminate.
Qed.

Lemma cv_attempt_fails_raises (cv : InferenceHTTPClient)
  (fruit_name : pyval) (e : exn) :
  provider_A_raises w cv image_bytes e \/ cv_attempt_fails w cv image_bytes e ->
  cv_attempt w cv fruit_name image_bytes = Raises e.
Proof.
  intros [H | [fruit_name' H]].
  - now apply cv_attempt_raises.
  - now apply cv_attempt_raises_any with fruit_name'.
Qed.

Lemma cv_attempt_zero (cv : InferenceHTTPClient)
  (fruit_name : pyval) (r : pydict) :
  zero_predictions w cv image_bytes ->
  analyze_ripeness_with_openai w image_bytes = Returns r ->
  cv_attempt w cv fruit_name image_bytes
  = Returns (fallback fruit_name r "openai_fallback"
               "No predictions found from CV model and OpenAI fallback failed").
Proof.
  unfold cv_attempt.
  intros [result [preds [[image [Himg Hinfer]] [Hget Hfalse]]]] Hr.
  rewrite Himg. cbn [bind]. rewrite Hinfer. cbn [bind]. rewrite Hget. cbn [bind].
  rewrite Hfalse, Hr. cbn [bind negb]. apply if_Returns.
Qed.

Lemma cv_attempt_some (cv : InferenceHTTPClient)
  (fruit_name : pyval) (preds : list pyval) :
  some_predictions w cv image_bytes preds ->
  cv_attempt w cv fruit_name image_bytes = cv_report fruit_name (PList preds).
Proof.
  unfold cv_attempt.
  intros [result [[image [Himg Hinfer]] [Hget Hne]]].
  rewrite Himg. cbn [bind]. rewrite Hinfer. cbn [bind]. rewrite Hget. cbn [bind].
  destruct preds; [contradiction | reflexivity].
Qed.

(** Where a result of the [try] block comes from: the fallback after an
    answer without predictions, or the report branch. *)
Lemma cv_attempt_returns (cv : InferenceHTTPClient)
  (fruit_name : pyval) (r d : pydict) :
  analyze_ripeness_with_openai w image_bytes = Returns r ->
  cv_attempt w cv fruit_name image_bytes = Returns d ->
  (zero_predictions w cv image_bytes
   /\ d = fallback fruit_name r "openai_fallback"
            "No predictions found from CV model and OpenAI fallback failed")
  \/ (exists result preds,
        provider_A_returns w cv image_bytes result
        /\ py_get result "predictions" (PList []) = Returns preds
        /\ py_truthy preds = true
        /\ cv_report fruit_name preds = Returns d).
Proof.
  intros Hr H. unfold cv_attempt in H.
  destruct (Image_open_RGB w image_bytes) as [image|e] eqn:Himg;
    cbn [bind] in H; [| discriminate].
  destruct (infer cv (resize image (640, 640)%nat) "fruit-ripeness-unjex/2")
    as [result|e] eqn:Hinfer; cbn [bind] in H; [| discriminate].
  destruct (py_get result "predictions" (PList [])) as [preds|e] eqn:Hget;
    cbn [bind] in H; [| discriminate].
  assert (HA : provider_A_returns w cv image_bytes result) by (exists image; auto).
  destruct (py_truthy preds) eqn:Htruthy; cbn [negb] in H.
  - right. exists result, preds. auto.
  - left. split.
    + exists result, preds. auto.
    + rewrite Hr in H. cbn [bind] in H. rewrite if_Returns in H.
      now inversion H.
Qed.

(** C1, amended. For every non-empty list of predictions that Provider A
    returns, [analyze_image] selects the prediction of maximum confidence,
    the first of those that share it; when the class label of that
    prediction has a last whitespace-delimited token (the label ["unknown"]
    has the token ["unknown"]), the result is the report whose ripeness is
    that token, whose confidence is the selected score multiplied by 100 and
    rounded to two places, and whose source is ["cv_model"]. *)
Theorem analyze_image_cv_model (cv : InferenceHTTPClient)
  (preds : list pyval) :
  CLIENT w = Some cv ->
  some_predictions w cv image_bytes preds ->
  forallb is_prediction preds = true ->
  exists info top,
    get_fruit_name w image_bytes = Returns info
    /\ py_max (PList preds) confidence_key = Returns top
    /\ first_maximum preds top
    /\ (label_of top = PStr "unknown" -> last_token (label_of top) = Some "unknown")
    /\ (forall stage,
          last_token (label_of top) = Some stage ->
          exists scaled confidence,
            py_mul_int (score_of top) 100 = Returns scaled
            /\ py_round2 scaled = Returns confidence
            /\ analyze_image w image_bytes
               = Returns [("fruit_name", name_of info);
                          ("ripeness", PStr stage);
                          ("confidence", confidence);
                          ("source", PStr "cv_model")]).
Proof.
  intros HC Hsome Hall.
  destruct analyze_image_unfold
    as (info & n & r & Hinfo & Hn & Hr & Himg).
  rewrite HC in Himg.
  rewrite (cv_attempt_some cv (PStr n) preds Hsome) in Himg.
  assert (Hne : preds <> []) by (destruct Hsome as (_ & _ & _ & H); exact H).
  destruct (py_max_first_maximum preds Hne Hall) as (top & Hmax & Hfirst & Htop).
  exists info, top. split; [exact Hinfo |]. split; [exact Hmax |].
  split; [exact Hfirst |]. split.
  - intros ->. reflexivity.
  - intros stage Hstage.
    destruct (scaled_confidence top Htop) as (scaled & conf & Hmul & Hround).
    exists scaled, conf. split; [exact Hmul |]. split; [exact Hround |].
    rewrite Himg, Hn. unfold cv_report. rewrite Hmax. cbn [bind].
    destruct (is_prediction_dict top Htop) as (td & _ & -> & _).
    cbn [py_get bind]. rewrite stage_of_label.
    cbn [label_of score_of] in Hstage, Hmul. rewrite Hstage. cbn [bind].
    rewrite Hmul. cbn [bind]. rewrite Hround. reflexivity.
Qed.

(** C2, amended. Every report [analyze_image] returns carries a
    confidence, a number; its ripeness is one of the four stages when the
    source is ["openai_primary"] or ["openai_fallback"]; with source
    ["cv_model"] the ripeness is the last whitespace-delimited token of the
    class label of the prediction [max] selected, whatever that token is. *)
Theorem analyze_image_report_fields (d : pydict) :
  analyze_image w image_bytes = Returns d ->
  is_error d = false ->
  exists fruit_name ripeness confidence source,
    d = [("fruit_name", PStr fruit_name); ("ripeness", PStr ripeness);
         ("confidence", confidence); ("source", PStr source)]
    /\ is_number confidence = true
    /\ (((source = "openai_primary" \/ source = "openai_fallback")
         /\ In ripeness ripeness_stages)
        \/ (source = "cv_model"
            /\ exists cv result preds top,
                 CLIENT w = Some cv
                 /\ provider_A_returns w cv image_bytes result
                 /\ py_get result "predictions" (PList []) = Returns preds
                 /\ py_max preds confidence_key = Returns top
                 /\ last_token (label_of top) = Some ripeness)).
Proof.
  intros Hd Hnoerr.
  destruct analyze_image_unfold
    as (info & n & r & Hinfo & Hn & Hr & Himg).
  destruct (analyze_ripeness_returns w image_bytes) as [r' [Hr' Hshape]].
  rewrite Hr in Hr'. inversion Hr'; subst r'. clear Hr'.
  rewrite Hd in Himg.
  assert (Hfb : forall source msg,
            source = "openai_primary" \/ source = "openai_fallback" ->
            d = fallback (PStr n) r source msg ->
            exists fruit_name ripeness confidence source,
              d = [("fruit_name", PStr fruit_name); ("ripeness", PStr ripeness);
                   ("confidence", confidence); ("source", PStr source)]
              /\ is_number confidence = true
              /\ (((source = "openai_primary" \/ source = "openai_fallback")
                   /\ In ripeness ripeness_stages)
                  \/ (source = "cv_model"
                      /\ exists cv result preds top,
                           CLIENT w = Some cv
                           /\ provider_A_returns w cv image_bytes result
                           /\ py_get result "predictions" (PList []) = Returns preds
                           /\ py_max preds confidence_key = Returns top
                           /\ last_token (label_of top) = Some ripeness))).
  { intros source msg Hsrc ->.
    destruct Hshape as [[_ Herr] | [Hp Hok]].
    - rewrite (fallback_error n r source msg Herr) in Hnoerr. discriminate.
    - destruct (fallback_parsed n r source msg Hp Hok) as [rp [c [-> Hin]]].
      exists n, rp, (PFloat c), source. auto. }
  destruct (CLIENT w) as [cv|] eqn:HC.
  - destruct (cv_attempt w cv (PStr n) image_bytes) as [d'|e] eqn:Hcv;
      cbn [try_except] in Himg; injection Himg as Himg.
    + subst d'.
      destruct (cv_attempt_returns _ _ _ _ Hr Hcv)
        as [[_ Hd'] | (result & preds & HA & Hget & _ & Hrep)].
      * eapply Hfb; [| eassumption]. auto.
      * apply cv_report_returns in Hrep.
        destruct Hrep
          as (top & stage & scaled & conf & Hmax & Hstage & _ & _ & Hnum & ->).
        exists n, stage, conf, "cv_model". split; [reflexivity |].
        split; [exact Hnum |]. right. split; [reflexivity |].
        exists cv, result, preds, top. auto.
    + eapply Hfb; [| eassumption]. auto.
  - injection Himg as Himg. eapply Hfb; [| eassumption]. auto.
Qed.

(** C3. [analyze_image] returns on every input, raising nothing: its result
    is either a populated report or an error result, never both and never a
    part of one; and when the call to Provider A fails (it raises, or its
    answer cannot be read) and the fallback ripeness analysis of Provider B
    fails too, the result is an error result. *)
Theorem analyze_image_report_or_error :
  exists d,
    analyze_image w image_bytes = Returns d
    /\ xorb (is_report d) (is_error d) = true
    /\ (forall cv e r,
          CLIENT w = Some cv ->
          provider_A_raises w cv image_bytes e
          \/ cv_attempt_fails w cv image_bytes e ->
          analyze_ripeness_with_openai w image_bytes = Returns r ->
          dict_mem "error" r = true ->
          is_error d = true /\ is_report d = false).
Proof.
  destruct analyze_image_unfold
    as (info & n & r & Hinfo & Hn & Hr & Himg).
  destruct (analyze_ripeness_returns w image_bytes) as [r' [Hr' Hshape]].
  rewrite Hr in Hr'. inversion Hr'; subst r'. clear Hr'.
  destruct (CLIENT w) as [cv|] eqn:HC.
  - destruct (cv_attempt w cv (PStr n) image_bytes) as [d|e] eqn:Hcv;
      cbn [try_except] in Himg.
    + exists d. split; [exact Himg |]. split.
      * destruct (cv_attempt_returns _ _ _ _ Hr Hcv)
          as [[_ ->] | (result & preds & _ & _ & _ & Hrep)].
        -- now apply fallback_shape.
        -- apply cv_report_shape in Hrep. destruct Hrep as [-> ->]. reflexivity.
      * intros cv' e r' Hcv' Hraise _ _. inversion Hcv'; subst cv'.
        rewrite (cv_attempt_fails_raises _ (PStr n) _ Hraise) in Hcv.
        discriminate.
    + eexists. split; [exact Himg |]. split.
      * now apply fallback_shape.
      * intros cv' e' r' _ _ Hr' Herr.
        rewrite Hr in Hr'. inversion Hr'; subst r'.
        rewrite (fallback_error _ _ _ _ Herr). split; reflexivity.
  - eexists. split; [exact Himg |]. split.
    + now apply fallback_shape.
    + intros cv e r' Hcv. discriminate.
Qed.

(** C4. When Provider A is not configured ([CLIENT] is [None]),
    [analyze_image] returns, for a successful ripeness analysis of
    Provider B, the report with source ["openai_primary"] and the confidence
    of that analysis (70.0 were it absent), and for a failed one the error
    ["OpenAI analysis failed"]. *)
Theorem analyze_image_openai_primary :
  CLIENT w = None ->
  exists info r,
    get_fruit_name w image_bytes = Returns info
    /\ analyze_ripeness_with_openai w image_bytes = Returns r
    /\ (dict_mem "error" r = false ->
        analyze_image w image_bytes
        = Returns [("fruit_name", name_of info);
                   ("ripeness", dict_get_default r "ripeness" (PStr "unknown"));
                   ("confidence", dict_get_default r "confidence" (PFloat 70));
                   ("source", PStr "openai_primary")])
    /\ (dict_mem "error" r = true ->
        analyze_image w image_bytes
        = Returns [("error", PStr "OpenAI analysis failed")]).
Proof.
  intros HC.
  destruct analyze_image_unfold
    as (info & n & r & Hinfo & Hn & Hr & Himg).
  rewrite HC in Himg. exists info, r. repeat split; try assumption.
  - intros Hok. rewrite Himg, Hn. unfold fallback. now rewrite Hok.
  - intros Herr. rewrite Himg. unfold fallback. now rewrite Herr.
Qed.

(** C5. When Provider A is available and gives nothing to use (an answer
    without predictions, a call that raises, or an answer that cannot be
    read), [analyze_image] falls
    back to the ripeness analysis of Provider B: for a successful analysis
    it returns the report with source ["openai_fallback"]; after an answer
    without predictions and a failed analysis it returns the error
    ["No predictions found from CV model and OpenAI fallback failed"]. *)
Theorem analyze_image_openai_fallback (cv : InferenceHTTPClient)
  :
  CLIENT w = Some cv ->
  zero_predictions w cv image_bytes
  \/ (exists e, provider_A_raises w cv image_bytes e
                \/ cv_attempt_fails w cv image_bytes e) ->
  exists info r,
    get_fruit_name w image_bytes = Returns info
    /\ analyze_ripeness_with_openai w image_bytes = Returns r
    /\ (dict_mem "error" r = false ->
        analyze_image w image_bytes
        = Returns [("fruit_name", name_of info);
                   ("ripeness", dict_get_default r "ripeness" (PStr "unknown"));
                   ("confidence", dict_get_default r "confidence" (PFloat 70));
                   ("source", PStr "openai_fallback")])
    /\ (dict_mem "error" r = true ->
        zero_predictions w cv image_bytes ->
        analyze_image w image_bytes
        = Returns
            [("error",
              PStr "No predictions found from CV model and OpenAI fallback failed")]).
Proof.
  intros HC Hno.
  destruct analyze_image_unfold
    as (info & n & r & Hinfo & Hn & Hr & Himg).
  rewrite HC in Himg. exists info, r. repeat split; try assumption.
  - intros Hok. rewrite Himg, Hn. destruct Hno as [Hzero | [e Hraise]].
    + rewrite (cv_attempt_zero cv (PStr n) r Hzero Hr).
      cbn [try_except]. unfold fallback. now rewrite Hok.
    + rewrite (cv_attempt_fails_raises cv (PStr n) e Hraise).
      cbn [try_except]. unfold fallback. now rewrite Hok.
  - intros Herr Hzero. rewrite Himg.
    rewrite (cv_attempt_zero cv (PStr n) r Hzero Hr).
    cbn [try_except]. unfold fallback. now rewrite Herr.
Qed.

(** Every report carries the name read off [get_fruit_name]. *)
Lemma report_fruit_name (info d : pydict) :
  get_fruit_name w image_bytes = Returns info ->
  analyze_image w image_bytes = Returns d ->
  is_report d = true ->
  dict_get d "fruit_name" = Some (name_of info).
Proof.
  intros Hinfo Hd Hrep.
  destruct analyze_image_unfold
    as (info' & n & r & Hinfo' & Hn & Hr & Himg).
  rewrite Hinfo in Hinfo'. inversion Hinfo'; subst info'. clear Hinfo'.
  rewrite Hn. rewrite Hd in Himg.
  assert (Hfb : forall source msg,
            d = fallback (PStr n) r source msg ->
            dict_get d "fruit_name" = Some (PStr n)).
  { intros source msg ->. unfold fallback in *.
    destruct (dict_mem "error" r); [discriminate | reflexivity]. }
  destruct (CLIENT w) as [cv|].
  - destruct (cv_attempt w cv (PStr n) image_bytes) as [d'|e] eqn:Hcv;
      cbn [try_except] in Himg; injection Himg as Himg.
    + subst d'.
      destruct (cv_attempt_returns _ _ _ _ Hr Hcv)
        as [[_ Hd'] | (result & preds & _ & _ & _ & Hrep')].
      * eapply Hfb; eassumption.
      * apply cv_report_returns in Hrep'.
        destruct Hrep' as (top & stage & scaled & conf & _ & _ & _ & _ & _ & ->).
        reflexivity.
    + eapply Hfb; eassumption.
  - injection Himg as Himg. eapply Hfb; eassumption.
Qed.

End Resolver.

Lemma get_fruit_name_with_CLIENT (w : World) (cv : option InferenceHTTPClient)
  (image_bytes : bytes) :
  get_fruit_name (with_CLIENT w cv) image_bytes = get_fruit_name w image_bytes.
Proof. reflexivity. Qed.

(** C6. The [fruit_name] of every report [analyze_image] returns is the
    name [get_fruit_name] obtained from Provider B, which is ["unknown"] when
    that call failed; Provider A has no part in it: two runs that differ
    in Provider A alone return reports with the same [fruit_name]. *)
Theorem analyze_image_fruit_name (w : World) (image_bytes : bytes) :
  exists info,
    get_fruit_name w image_bytes = Returns info
    /\ (forall d,
          analyze_image w image_bytes = Returns d ->
          is_report d = true ->
          dict_get d "fruit_name" = Some (name_of info))
    /\ (client w = None
        \/ (exists cl e,
              client w = Some cl
              /\ completion_content cl FruitNamePrompt 50 image_bytes = Raises e) ->
        name_of info = PStr "unknown")
    /\ (forall cv' d d',
          analyze_image w image_bytes = Returns d ->
          analyze_image (with_CLIENT w cv') image_bytes = Returns d' ->
          is_report d = true ->
          is_report d' = true ->
          dict_get d "fruit_name" = dict_get d' "fruit_name").
Proof.
  destruct (get_fruit_name_returns w image_bytes) as [info [n [Hinfo Hn]]].
  exists info. split; [exact Hinfo |]. split; [| split].
  - intros d. now apply report_fruit_name.
  - intros Hfail. unfold get_fruit_name in Hinfo.
    destruct Hfail as [Hnone | (cl & e & Hcl & Hraise)].
    + rewrite Hnone in Hinfo. now inversion Hinfo.
    + rewrite Hcl, Hraise in Hinfo. now inversion Hinfo.
  - intros cv' d d' Hd Hd' Hrep Hrep'.
    rewrite (report_fruit_name w image_bytes info d Hinfo Hd Hrep).
    symmetry.
    apply (report_fruit_name (with_CLIENT w cv') image_bytes info d');
      try assumption.
Qed.

(** ** The examples of the resolver *)

(** The example of the specification: of the predictions
    ["banana unripe"] at 0.4 and ["banana ripe"] at 0.91 the second wins,
    and the report says ["ripe"], 91.0, ["cv_model"]. *)
Lemma analyze_image_cv_model_witness :
  CLIENT (world (Some provider_B) (Some cv_two)) = Some cv_two
  /\ some_predictions (world (Some provider_B) (Some cv_two)) cv_two
       photo two_predictions
  /\ forallb is_prediction two_predictions = true
  /\ analyze_image (world (Some provider_B) (Some cv_two)) photo
     = Returns [("fruit_name", PStr "banana"); ("ripeness", PStr "ripe");
                ("confidence", PFloat 91); ("source", PStr "cv_model")].
Proof.
  assert (Hsome : some_predictions (world (Some provider_B) (Some cv_two))
                    cv_two photo two_predictions).
  { eexists. split; [eexists; split; reflexivity |].
    split; [reflexivity | discriminate]. }
  split; [reflexivity |]. split; [exact Hsome |]. split; [reflexivity |].
  destruct (analyze_image_cv_model
              (world (Some provider_B) (Some cv_two)) photo cv_two
              two_predictions eq_refl Hsome eq_refl)
    as (info & top & Hinfo & Hmax & _ & _ & Hreport).
  vm_compute in Hinfo. injection Hinfo as <-.
  vm_compute in Hmax. injection Hmax as <-.
  destruct (Hreport "ripe" eq_refl) as (scaled & conf & Hmul & Hround & Himg).
  vm_compute in Hmul. injection Hmul as <-.
  vm_compute in Hround. injection Hround as <-.
  exact Himg.
Defined.

(** Of two predictions of equal confidence the first wins. *)
Example analyze_image_tie :
  analyze_image (world (Some provider_B) (Some cv_tie)) photo
  = Returns [("fruit_name", PStr "banana"); ("ripeness", PStr "ripe");
             ("confidence", PFloat 90); ("source", PStr "cv_model")].
Proof. vm_compute. reflexivity. Qed.

(** C1 as stated fails for a class label without a token: the selected
    prediction has the empty label, [split] gives no token, the index raises
    and [analyze_image] falls back to Provider B. *)
Lemma analyze_image_cv_model_counterexample :
  CLIENT (world (Some provider_B) (Some cv_empty_label)) = Some cv_empty_label
  /\ some_predictions (world (Some provider_B) (Some cv_empty_label))
       cv_empty_label photo [prediction "" 0.9]
  /\ forallb is_prediction [prediction "" 0.9] = true
  /\ analyze_image (world (Some provider_B) (Some cv_empty_label))
       photo
     = Returns [("fruit_name", PStr "banana"); ("ripeness", PStr "ripe");
                ("confidence", PFloat 88); ("source", PStr "openai_fallback")]
  /\ ~ (exists d,
          analyze_image (world (Some provider_B) (Some cv_empty_label))
            photo = Returns d
          /\ dict_get d "source" = Some (PStr "cv_model")).
Proof.
  split; [reflexivity |]. split.
  { eexists. split; [eexists; split; reflexivity |].
    split; [reflexivity | discriminate]. }
  split; [reflexivity |]. split; [vm_compute; reflexivity |].
  intros [d [Hd Hsrc]]. vm_compute in Hd. injection Hd as <-.
  vm_compute in Hsrc. discriminate.
Qed.

(** A report from Provider A's predictions and its fields. *)
Lemma analyze_image_report_fields_witness :
  analyze_image (world (Some provider_B) (Some cv_two)) photo
  = Returns [("fruit_name", PStr "banana"); ("ripeness", PStr "ripe");
             ("confidence", PFloat 91); ("source", PStr "cv_model")]
  /\ is_error [("fruit_name", PStr "banana"); ("ripeness", PStr "ripe");
               ("confidence", PFloat 91); ("source", PStr "cv_model")] = false
  /\ exists fruit_name ripeness confidence source,
       [("fruit_name", PStr "banana"); ("ripeness", PStr "ripe");
        ("confidence", PFloat 91); ("source", PStr "cv_model")]
       = [("fruit_name", PStr fruit_name); ("ripeness", PStr ripeness);
          ("confidence", confidence); ("source", PStr source)]
       /\ is_number confidence = true.
Proof.
  split; [reflexivity |]. split; [reflexivity |].
  destruct (analyze_image_report_fields (world (Some provider_B) (Some cv_two)) photo
              _ eq_refl eq_refl)
    as (fruit_name & ripeness & confidence & source & Hd & Hnum & _).
  exists fruit_name, ripeness, confidence, source. split; assumption.
Defined.

(** C2 as stated fails on the path of Provider A: for a prediction whose
    class label is ["banana"], the report's ripeness is ["banana"], none of
    the four stages. *)
Lemma analyze_image_report_fields_counterexample :
  analyze_image (world (Some provider_B) (Some cv_fruit_label)) photo
  = Returns [("fruit_name", PStr "banana"); ("ripeness", PStr "banana");
             ("confidence", PFloat 90); ("source", PStr "cv_model")]
  /\ is_report [("fruit_name", PStr "banana"); ("ripeness", PStr "banana");
                ("confidence", PFloat 90); ("source", PStr "cv_model")] = true
  /\ ~ In "banana" ripeness_stages.
Proof.
  split; [reflexivity |]. split; [reflexivity |].
  unfold ripeness_stages. simpl. intros [H | [H | [H | [H | []]]]]; discriminate.
Qed.

(** Both providers fail: Provider A raises and every call to Provider B
    raises; the result is the error result of the handler. *)
Lemma analyze_image_report_or_error_witness :
  CLIENT (world (Some provider_B_down) (Some cv_down)) = Some cv_down
  /\ provider_A_raises (world (Some provider_B_down) (Some cv_down)) cv_down photo
       (ExternalError "connection refused")
  /\ analyze_ripeness_with_openai (world (Some provider_B_down) (Some cv_down)) photo
     = Returns [("error", PStr "timeout")]
  /\ analyze_image (world (Some provider_B_down) (Some cv_down)) photo
     = Returns [("error",
                 PStr "CV model error and OpenAI fallback failed: connection refused")]
  /\ is_error [("error",
                PStr "CV model error and OpenAI fallback failed: connection refused")]
     = true.
Proof.
  assert (HA : provider_A_raises (world (Some provider_B_down) (Some cv_down))
                 cv_down photo (ExternalError "connection refused")).
  { right. eexists. split; reflexivity. }
  split; [reflexivity |]. split; [exact HA |]. split; [reflexivity |].
  destruct (analyze_image_report_or_error
              (world (Some provider_B_down) (Some cv_down)) photo)
    as (d & Hd & _ & Hfail).
  destruct (Hfail cv_down (ExternalError "connection refused")
              [("error", PStr "timeout")] eq_refl (or_introl HA) eq_refl eq_refl)
    as [Herr _].
  vm_compute in Hd. injection Hd as <-.
  split; [reflexivity | exact Herr].
Defined.

(** Provider A is not configured: the reply of Provider B gives the
    report tagged ["openai_primary"], and a Provider B that is down gives
    the error. *)
Lemma analyze_image_openai_primary_witness :
  CLIENT (world (Some provider_B) None) = None
  /\ analyze_image (world (Some provider_B) None) photo
     = Returns [("fruit_name", PStr "banana"); ("ripeness", PStr "ripe");
                ("confidence", PFloat 88); ("source", PStr "openai_primary")]
  /\ analyze_image (world (Some provider_B_down) None) photo
     = Returns [("error", PStr "OpenAI analysis failed")].
Proof.
  split; [reflexivity |]. split.
  - destruct (analyze_image_openai_primary (world (Some provider_B) None) photo
                eq_refl) as (info & r & Hinfo & Hr & Hok & _).
    vm_compute in Hinfo. injection Hinfo as <-.
    vm_compute in Hr. injection Hr as <-.
    exact (Hok eq_refl).
  - destruct (analyze_image_openai_primary (world (Some provider_B_down) None) photo
                eq_refl) as (info & r & Hinfo & Hr & _ & Herr).
    vm_compute in Hr. injection Hr as <-.
    exact (Herr eq_refl).
Defined.

(** The example of the specification: Provider A returns no prediction
    and Provider B says overripe at 60; and the same with Provider B down. *)
Lemma analyze_image_openai_fallback_witness :
  CLIENT (world (Some (provider_B_saying overripe_json)) (Some cv_none)) = Some cv_none
  /\ zero_predictions (world (Some (provider_B_saying overripe_json)) (Some cv_none))
       cv_none photo
  /\ analyze_image (world (Some (provider_B_saying overripe_json)) (Some cv_none)) photo
     = Returns [("fruit_name", PStr "banana"); ("ripeness", PStr "overripe");
                ("confidence", PFloat 60); ("source", PStr "openai_fallback")]
  /\ analyze_image (world (Some provider_B_down) (Some cv_none)) photo
     = Returns [("error",
                 PStr "No predictions found from CV model and OpenAI fallback failed")].
Proof.
  assert (Hzero : forall b, zero_predictions (world b (Some cv_none)) cv_none photo).
  { intros b. exists (PDict [("predictions", PList [])]), (PList []).
    split; [eexists; split; reflexivity |]. split; reflexivity. }
  split; [reflexivity |]. split; [apply Hzero |]. split.
  - destruct (analyze_image_openai_fallback
                (world (Some (provider_B_saying overripe_json)) (Some cv_none))
                photo cv_none eq_refl (or_introl (Hzero _)))
      as (info & r & Hinfo & Hr & Hok & _).
    vm_compute in Hinfo. injection Hinfo as <-.
    vm_compute in Hr. injection Hr as <-.
    exact (Hok eq_refl).
  - destruct (analyze_image_openai_fallback
                (world (Some provider_B_down) (Some cv_none))
                photo cv_none eq_refl (or_introl (Hzero _)))
      as (info & r & Hinfo & Hr & _ & Herr).
    vm_compute in Hr. injection Hr as <-.
    exact (Herr eq_refl (Hzero _)).
Defined.

(** The name is Provider B's with Provider A answering and with
    Provider A absent. *)
Lemma analyze_image_fruit_name_witness :
  analyze_image (world (Some provider_B) (Some cv_two)) photo
  = Returns [("fruit_name", PStr "banana"); ("ripeness", PStr "ripe");
             ("confidence", PFloat 91); ("source", PStr "cv_model")]
  /\ analyze_image (with_CLIENT (world (Some provider_B) (Some cv_two)) None) photo
     = Returns [("fruit_name", PStr "banana"); ("ripeness", PStr "ripe");
                ("confidence", PFloat 88); ("source", PStr "openai_primary")]
  /\ dict_get [("fruit_name", PStr "banana"); ("ripeness", PStr "ripe");
               ("confidence", PFloat 91); ("source", PStr "cv_model")] "fruit_name"
     = dict_get [("fruit_name", PStr "banana"); ("ripeness", PStr "ripe");
                 ("confidence", PFloat 88); ("source", PStr "openai_primary")]
         "fruit_name".
Proof.
  split; [reflexivity |]. split; [reflexivity |].
  destruct (analyze_image_fruit_name (world (Some provider_B) (Some cv_two)) photo)
    as (info & _ & _ & _ & Hsame).
  exact (Hsame None _ _ eq_refl eq_refl eq_refl eq_refl).
Defined.

(** * Further properties *)

Import MoreExamples.

(** ** Base64 *)

(** Arithmetic with quotients and remainders by constants. *)
Ltac div_lia := zify; Z.to_euclidean_division_equations; lia.

Lemma list_ind3 {A : Type} (P : list A -> Prop) :
  P [] -> (forall x, P [x]) -> (forall x y, P [x; y]) ->
  (forall x y z l, P l -> P (x :: y :: z :: l)) ->
  forall l, P l.
Proof.
  intros H0 H1 H2 H3. fix IH 1.
  intros [| x [| y [| z l]]].
  - exact H0.
  - apply H1.
  - apply H2.
  - apply H3. apply IH.
Qed.

Lemma digit_value_digit (n : N) :
  (n < 64)%N -> digit_value (digit n) = Some n.
Proof.
  intros H.
  assert (Hall : forallb (fun k => match digit_value (digit k) with
                                   | Some m => N.eqb m k
                                   | None => false
                                   end)
                         (map N.of_nat (seq 0 64)) = true)
    by (vm_compute; reflexivity).
  rewrite forallb_forall in Hall. specialize (Hall n).
  assert (Hin : In n (map N.of_nat (seq 0 64))).
  { apply in_map_iff. exists (N.to_nat n).
    split; [apply Nnat.N2Nat.id | apply in_seq; lia]. }
  specialize (Hall Hin).
  destruct (digit_value (digit n)) as [m|]; [| discriminate].
  f_equal. now apply N.eqb_eq.
Qed.

(** The six-bit groups of three bytes, and the bytes read back from
    them. *)
Lemma byte_groups (a b c : N) :
  (a <= 255 -> b <= 255 -> c <= 255 ->
   a / 4 < 64 /\ a mod 4 * 16 < 64 /\ a mod 4 * 16 + b / 16 < 64
   /\ b mod 16 * 4 < 64 /\ b mod 16 * 4 + c / 64 < 64 /\ c mod 64 < 64
   /\ a / 4 * 4 + (a mod 4 * 16 + b / 16) / 16 = a
   /\ a / 4 * 4 + (a mod 4 * 16) / 16 = a
   /\ (a mod 4 * 16 + b / 16) mod 16 * 16 + (b mod 16 * 4 + c / 64) / 4 = b
   /\ (a mod 4 * 16 + b / 16) mod 16 * 16 + (b mod 16 * 4) / 4 = b
   /\ (b mod 16 * 4 + c / 64) mod 4 * 64 + c mod 64 = c)%N.
Proof.
  intros Ha Hb Hc. repeat split; div_lia.
Qed.

Lemma b64decode_b64encode (s : bytes) : b64decode (b64encode s) = Some s.
Proof.
  induction s as [| x | x y | x y z l IH] using list_ind3.
  - reflexivity.
  - pose proof (Byte.to_N_bounded x) as Hx.
    destruct (byte_groups (Byte.to_N x) 0 0 Hx) as (H1 & H2 & _ & _ & _ & _ & _ & E & _);
      try (compute; discriminate).
    cbn [b64encode b64decode].
    rewrite (digit_value_digit _ H1), (digit_value_digit _ H2).
    change (digit_value "="%char) with (@None N).
    rewrite E, Byte.of_to_N. reflexivity.
  - pose proof (Byte.to_N_bounded x) as Hx.
    pose proof (Byte.to_N_bounded y) as Hy.
    destruct (byte_groups (Byte.to_N x) (Byte.to_N y) 0 Hx Hy)
      as (H1 & _ & H2 & H3 & _ & _ & E1 & _ & _ & E2 & _);
      try (compute; discriminate).
    cbn [b64encode b64decode].
    rewrite (digit_value_digit _ H1), (digit_value_digit _ H2),
      (digit_value_digit _ H3).
    change (digit_value "="%char) with (@None N).
    rewrite E1, E2, !Byte.of_to_N. reflexivity.
  - pose proof (Byte.to_N_bounded x) as Hx.
    pose proof (Byte.to_N_bounded y) as Hy.
    pose proof (Byte.to_N_bounded z) as Hz.
    destruct (byte_groups (Byte.to_N x) (Byte.to_N y) (Byte.to_N z) Hx Hy Hz)
      as (H1 & _ & H2 & _ & H3 & H4 & E1 & _ & E2 & _ & E3).
    cbn [b64encode b64decode].
    rewrite (digit_value_digit _ H1), (digit_value_digit _ H2),
      (digit_value_digit _ H3), (digit_value_digit _ H4).
    rewrite E1, E2, E3, !Byte.of_to_N, IH. reflexivity.
Qed.

Lemma append_inj (p s t : string) : (p ++ s = p ++ t)%string -> s = t.
Proof.
  induction p as [| c p IH]; [trivial |].
  cbn [String.append]. intros H. injection H as H. now apply IH.
Qed.

(** X1. [encode_image_base64] loses nothing of the image: the bytes can be
    read back from the text it returns, so that two images with the same
    text, or with the same image URL in a request, are the same image. *)
Theorem encode_image_base64_round_trip :
  (forall image_bytes,
     b64decode (encode_image_base64 image_bytes) = Some image_bytes)
  /\ (forall image_bytes image_bytes',
        encode_image_base64 image_bytes = encode_image_base64 image_bytes' ->
        image_bytes = image_bytes')
  /\ (forall image_bytes image_bytes',
        image_url (encode_image_base64 image_bytes)
        = image_url (encode_image_base64 image_bytes') ->
        image_bytes = image_bytes').
Proof.
  assert (Hinj : forall b b',
            encode_image_base64 b = encode_image_base64 b' -> b = b').
  { intros b b' H. unfold encode_image_base64 in H.
    pose proof (b64decode_b64encode b) as Hb. rewrite H in Hb.
    rewrite b64decode_b64encode in Hb. now injection Hb. }
  split; [apply b64decode_b64encode |]. split; [exact Hinj |].
  intros b b' H. apply Hinj. unfold image_url in H.
  now apply append_inj in H.
Qed.

Lemma is_b64_char_digit (n : N) : (n < 64)%N -> is_b64_char (digit n) = true.
Proof.
  intros H. unfold is_b64_char. now rewrite (digit_value_digit n H).
Qed.

(** X2. The text [encode_image_base64] returns for [n] bytes has four
    characters for every group of three bytes, the last group filled:
    [4 * ceil(n / 3)] characters, each a letter, a digit, [+], [/] or
    [=]. *)
Theorem encode_image_base64_shape (image_bytes : bytes) :
  String.length (encode_image_base64 image_bytes)
  = (4 * ((List.length image_bytes + 2) / 3))%nat
  /\ forall_chars is_b64_char (encode_image_base64 image_bytes) = true.
Proof.
  unfold encode_image_base64.
  induction image_bytes as [| x | x y | x y z l [IHlen IHchars]] using list_ind3.
  - split; reflexivity.
  - pose proof (Byte.to_N_bounded x) as Hx.
    destruct (byte_groups (Byte.to_N x) 0 0 Hx) as (H1 & H2 & _);
      try (compute; discriminate).
    split; [reflexivity |].
    cbn [b64encode forall_chars].
    rewrite (is_b64_char_digit _ H1), (is_b64_char_digit _ H2). reflexivity.
  - pose proof (Byte.to_N_bounded x) as Hx.
    pose proof (Byte.to_N_bounded y) as Hy.
    destruct (byte_groups (Byte.to_N x) (Byte.to_N y) 0 Hx Hy)
      as (H1 & _ & H2 & H3 & _); try (compute; discriminate).
    split; [reflexivity |].
    cbn [b64encode forall_chars].
    rewrite (is_b64_char_digit _ H1), (is_b64_char_digit _ H2),
      (is_b64_char_digit _ H3). reflexivity.
  - pose proof (Byte.to_N_bounded x) as Hx.
    pose proof (Byte.to_N_bounded y) as Hy.
    pose proof (Byte.to_N_bounded z) as Hz.
    destruct (byte_groups (Byte.to_N x) (Byte.to_N y) (Byte.to_N z) Hx Hy Hz)
      as (H1 & _ & H2 & _ & H3 & H4 & _).
    split.
    + cbn [b64encode String.length List.length]. rewrite IHlen.
      replace (S (S (S (List.length l))) + 2)%nat
        with (List.length l + 2 + 1 * 3)%nat by lia.
      rewrite Nat.div_add by discriminate. lia.
    + cbn [b64encode forall_chars].
      rewrite (is_b64_char_digit _ H1), (is_b64_char_digit _ H2),
        (is_b64_char_digit _ H3), (is_b64_char_digit _ H4). exact IHchars.
Qed.

(** ** The recipe and nutrition requests *)

(** X3. [get_recipes_and_safety] returns on every input, raising nothing.
    Without a client the result is the error ["OpenAI API not configured"].
    With one, a reply text that [json.loads] decodes, once stripped of
    whitespace and code fences, gives the decoded value as it is, whatever
    it is; one that [json.loads] rejects gives the error
    ["Failed to parse recipe response"]; and every other failure (the
    request raises, the reply is not a text, the decoder raises anything
    else) gives the error whose message is the text of the exception. *)
Theorem get_recipes_and_safety_returns (w : World) (advisor : Advisor)
  (image_bytes : bytes) (fruit_name ripeness : option string) :
  exists v,
    get_recipes_and_safety w advisor image_bytes fruit_name ripeness = Returns v
    /\ (client w = None ->
        v = PDict (error_result "OpenAI API not configured"))
    /\ (client w <> None ->
        (forall reply,
           recipes_reply advisor image_bytes fruit_name ripeness
           = Returns (PStr reply) ->
           match json_loads w (json_text reply) with
           | Returns x => v = x
           | Raises e =>
               v = PDict (error_result
                            (if is_JSONDecodeError e
                             then "Failed to parse recipe response"
                             else str_exn w e))
           end)
        /\ (forall c,
              recipes_reply advisor image_bytes fruit_name ripeness = Returns c ->
              (forall s, c <> PStr s) ->
              v = PDict (error_result (str_exn w AttributeError)))
        /\ (forall e,
              recipes_reply advisor image_bytes fruit_name ripeness = Raises e ->
              v = PDict (error_result (str_exn w e)))).
Proof.
  unfold get_recipes_and_safety, recipes_reply, json_text, error_result.
  destruct (client w) as [cl|].
  - cbv zeta.
    destruct (recipes_content advisor (recipe_context fruit_name ripeness) 2000
                (image_url (encode_image_base64 image_bytes)))
      as [content|e0].
    + destruct content as [| b | z | f | s | l | d];
        cbn [bind py_strip try_except];
        try (eexists; split; [reflexivity |]; split; [discriminate |];
             intros _; split; [discriminate |]; split; [| discriminate];
             intros c Hc _; reflexivity).
      destruct (json_loads w (strip_fences (strip s))) as [x|e] eqn:Hjson;
        cbn [bind try_except_only try_except].
      * eexists; split; [reflexivity |]. split; [discriminate |].
        intros _. split; [| split].
        -- intros reply Hreply. injection Hreply as <-. now rewrite Hjson.
        -- intros c Hc Hns. injection Hc as <-. now destruct (Hns s).
        -- discriminate.
      * destruct (is_JSONDecodeError e) eqn:He; cbn [try_except];
          (eexists; split; [reflexivity |]; split; [discriminate |];
           intros _; split; [| split];
           [ intros reply Hreply; injection Hreply as <-;
             rewrite Hjson, He; reflexivity
           | intros c Hc Hns; injection Hc as <-; now destruct (Hns s)
           | discriminate ]).
    + cbn [bind try_except]. eexists; split; [reflexivity |].
      split; [discriminate |]. intros _. split; [discriminate |].
      split; [discriminate |]. intros e He. now injection He as <-.
  - eexists; split; [reflexivity |]. split; [reflexivity |].
    intros H. now destruct H.
Qed.

(** X4. [get_recipes_and_safety] uses its two hints together or not at
    all: when either is missing or empty, the call is the call without
    hints. *)
Theorem get_recipes_and_safety_hints (w : World) (advisor : Advisor)
  (image_bytes : bytes) (fruit_name ripeness : option string) :
  truthy_text fruit_name && truthy_text ripeness = false ->
  get_recipes_and_safety w advisor image_bytes fruit_name ripeness
  = get_recipes_and_safety w advisor image_bytes None None.
Proof.
  intros H. unfold get_recipes_and_safety, recipe_context. now rewrite H.
Qed.

(** A name with no ripeness beside it does not reach the request; the
    request of the example world echoes its context, which is empty. *)
Lemma get_recipes_and_safety_hints_witness :
  truthy_text (Some "mango") && truthy_text None = false
  /\ get_recipes_and_safety (world (Some provider_B) None) echo jpeg_header
       (Some "mango") None
     = get_recipes_and_safety (world (Some provider_B) None) echo jpeg_header
         None None
  /\ get_recipes_and_safety (world (Some provider_B) None) echo jpeg_header
       None None
     = Returns (PDict (error_result "Failed to parse recipe response")).
Proof.
  split; [reflexivity |]. split; [| reflexivity].
  apply (get_recipes_and_safety_hints (world (Some provider_B) None) echo
           jpeg_header (Some "mango") None).
  reflexivity.
Defined.

(** The context of the recipe instruction when both hints are given, and
    the image URL of the request. *)
Example recipe_context_both :
  recipe_context (Some "mango") (Some "ripe")
  = (newline ++ "The fruit has been identified as: mango"
     ++ newline ++ "Current ripeness: ripe")%string
  /\ image_url (encode_image_base64 jpeg_header)
     = "data:image/jpeg;base64,/9j/4AAQSg==".
Proof. split; reflexivity. Qed.

(** X5. [get_nutrition_and_impact] returns on every input, raising
    nothing. Without a client the result is the error
    ["OpenAI API not configured"]. With one, a reply text that [json.loads]
    decodes, once stripped of whitespace and code fences, gives the decoded
    value as it is; every failure, a reply that is not JSON among them,
    gives the error whose message is the text of the exception. *)
Theorem get_nutrition_and_impact_returns (w : World) (advisor : Advisor)
  (fruit_name ripeness : string) :
  exists v,
    get_nutrition_and_impact w advisor fruit_name ripeness = Returns v
    /\ (client w = None ->
        v = PDict (error_result "OpenAI API not configured"))
    /\ (client w <> None ->
        (forall reply,
           nutrition_reply advisor fruit_name ripeness = Returns (PStr reply) ->
           match json_loads w (json_text reply) with
           | Returns x => v = x
           | Raises e => v = PDict (error_result (str_exn w e))
           end)
        /\ (forall c,
              nutrition_reply advisor fruit_name ripeness = Returns c ->
              (forall s, c <> PStr s) ->
              v = PDict (error_result (str_exn w AttributeError)))
        /\ (forall e,
              nutrition_reply advisor fruit_name ripeness = Raises e ->
              v = PDict (error_result (str_exn w e)))).
Proof.
  unfold get_nutrition_and_impact, nutrition_reply, json_text, error_result.
  destruct (client w) as [cl|].
  - destruct (nutrition_content advisor ripeness 800 fruit_name)
      as [content|e0].
    + destruct content as [| b | z | f | s | l | d];
        cbn [bind py_strip try_except];
        try (eexists; split; [reflexivity |]; split; [discriminate |];
             intros _; split; [discriminate |]; split; [| discriminate];
             intros c Hc _; reflexivity).
      destruct (json_loads w (strip_fences (strip s))) as [x|e] eqn:Hjson;
        cbn [bind try_except];
        (eexists; split; [reflexivity |]; split; [discriminate |];
         intros _; split; [| split];
         [ intros reply Hreply; injection Hreply as <-;
           rewrite Hjson; reflexivity
         | intros c Hc Hns; injection Hc as <-; now destruct (Hns s)
         | discriminate ]).
    + cbn [bind try_except]. eexists; split; [reflexivity |].
      split; [discriminate |]. intros _. split; [discriminate |].
      split; [discriminate |]. intros e He. now injection He as <-.
  - eexists; split; [reflexivity |]. split; [reflexivity |].
    intros H. now destruct H.
Qed.

(** The same prose reply to the two requests: the recipe function answers
    with its own message, the nutrition function with the decoder's. *)
Example prose_reply_two_errors :
  get_recipes_and_safety (world (Some provider_B) None)
    (advisor (Returns (PStr "Sorry, I cannot help."))
             (Returns (PStr "Sorry, I cannot help.")))
    jpeg_header None None
  = Returns (PDict (error_result "Failed to parse recipe response"))
  /\ get_nutrition_and_impact (world (Some provider_B) None)
       (advisor (Returns (PStr "Sorry, I cannot help."))
                (Returns (PStr "Sorry, I cannot help.")))
       "mango" "ripe"
     = Returns (PDict (error_result (exn_text JSONDecodeError))).
Proof. split; reflexivity. Qed.

(** ** Text: occurrences, fences and words *)

Lemma prefix_nil_r (a : ascii) (s : string) : prefix (String a s) "" = false.
Proof. reflexivity. Qed.

Lemma prefix_nil_l (s : string) : prefix "" s = true.
Proof. now destruct s. Qed.

Lemma prefix_cons (a b : ascii) (s1 s2 : string) :
  prefix (String a s1) (String b s2)
  = if Ascii.eqb a b then prefix s1 s2 else false.
Proof.
  change (prefix (String a s1) (String b s2))
    with (match ascii_dec a b with
          | left _ => prefix s1 s2
          | right _ => false
          end).
  destruct (ascii_dec a b) as [-> | Hne].
  - now rewrite Ascii.eqb_refl.
  - destruct (Ascii.eqb_spec a b); [contradiction | reflexivity].
Qed.

Lemma contains_prefix (sub s : string) :
  prefix sub s = true -> contains sub s = true.
Proof. intros H. destruct s; cbn [contains]; now rewrite H. Qed.

Lemma contains_cons (sub : string) (c : ascii) (s : string) :
  contains sub (String c s) = prefix sub (String c s) || contains sub s.
Proof. reflexivity. Qed.

(** A text that holds [String c sub] holds [sub]. *)
Lemma contains_tail (c : ascii) (sub s : string) :
  contains (String c sub) s = true -> contains sub s = true.
Proof.
  induction s as [| a s IH]; [discriminate |].
  rewrite !contains_cons. intros H. apply orb_prop in H.
  assert (Hs : contains sub s = true).
  { destruct H as [H | H]; [| now apply IH].
    rewrite prefix_cons in H. destruct (Ascii.eqb c a); [| discriminate].
    now apply contains_prefix. }
  rewrite Hs. apply orb_true_r.
Qed.

Lemma unripe_holds_ripe (t : string) :
  contains "unripe" t = true -> contains "ripe" t = true.
Proof. intros H. now do 2 apply contains_tail in H. Qed.

Lemma overripe_holds_ripe (t : string) :
  contains "overripe" t = true -> contains "ripe" t = true.
Proof. intros H. now do 4 apply contains_tail in H. Qed.

(** The ripeness scan says ["unknown"] exactly of the texts without
    ["ripe"]. *)
Lemma scan_ripeness_unknown (t : string) :
  scan_ripeness t = "unknown" <-> contains "ripe" t = false.
Proof.
  unfold scan_ripeness. split.
  - destruct (contains "unripe" t); [discriminate |].
    destruct (contains "overripe" t); [discriminate |].
    destruct (contains "ripe" t); [discriminate | reflexivity].
  - intros H.
    destruct (contains "unripe" t) eqn:Hu;
      [apply unripe_holds_ripe in Hu; congruence |].
    destruct (contains "overripe" t) eqn:Ho;
      [apply overripe_holds_ripe in Ho; congruence |].
    now rewrite H.
Qed.

(** The fruit scan returns a fruit of its list that occurs in the text, or
    ["unknown"] when none does. *)
Lemma scan_fruit_occurs (fruits : list string) (t : string) :
  (In (scan_fruit fruits t) fruits
   /\ contains (scan_fruit fruits t) t = true)
  \/ (scan_fruit fruits t = "unknown"
      /\ forall fruit, In fruit fruits -> contains fruit t = false).
Proof.
  induction fruits as [| fruit rest IH].
  - right. split; [reflexivity |]. intros fruit [].
  - unfold scan_fruit; fold scan_fruit.
    destruct (contains fruit t) eqn:Hc.
    + left. split; [now left | exact Hc].
    + destruct IH as [[Hin Hocc] | [Hunk Hnone]].
      * left. split; [now right | exact Hocc].
      * right. split; [exact Hunk |].
        intros f [<- | Hf]; [exact Hc | now apply Hnone].
Qed.

(** What [re.sub] keeps of a text that does not begin with a fence does
    not begin with one. *)
Lemma scan_keeps_no_tick (s : string) :
  prefix "`" s = false -> prefix "`" (re_sub_scan "```" 0 false s) = false.
Proof.
  destruct s as [| c s]; [reflexivity |].
  rewrite prefix_cons, prefix_nil_l. intros H.
  cbn [re_sub_scan andb]. rewrite !prefix_cons.
  destruct (Ascii.eqb "`" c) eqn:Hc; [discriminate |].
  now rewrite prefix_cons, Hc.
Qed.

Lemma scan_keeps_no_two_ticks (s : string) :
  prefix "``" s = false -> prefix "``" (re_sub_scan "```" 0 false s) = false.
Proof.
  destruct s as [| c s]; [reflexivity |].
  rewrite prefix_cons. intros H.
  cbn [re_sub_scan andb]. rewrite prefix_cons.
  destruct (Ascii.eqb "`" c) eqn:Hc.
  - assert (Hs : prefix "``" s = false).
    { destruct s as [| c' s]; [reflexivity |].
      rewrite prefix_cons in *. destruct (Ascii.eqb "`" c'); [| reflexivity].
      rewrite prefix_nil_l in H. discriminate. }
    rewrite Hs, prefix_cons, Hc. now apply scan_keeps_no_tick.
  - now rewrite prefix_cons, Hc.
Qed.

Lemma scan_keeps_no_fence (s : string) :
  prefix "```" s = false -> prefix "```" (re_sub_scan "```" 0 false s) = false.
Proof.
  destruct s as [| c s]; [reflexivity |].
  intros H. cbn [re_sub_scan andb]. rewrite H.
  rewrite prefix_cons in *.
  destruct (Ascii.eqb "`" c); [| reflexivity].
  now apply scan_keeps_no_two_ticks.
Qed.

Lemma re_sub_scan_no_fence (s : string) :
  forall skip ws, contains "```" (re_sub_scan "```" skip ws s) = false.
Proof.
  induction s as [| c s IH]; [reflexivity |].
  intros skip ws. cbn [re_sub_scan].
  destruct skip as [| k]; [| apply IH].
  destruct (ws && isspace c); [apply IH |].
  destruct (prefix "```" (String c s)) eqn:Hp; [apply IH |].
  rewrite contains_cons, IH, orb_false_r.
  pose proof (scan_keeps_no_fence (String c s) Hp) as H.
  cbn [re_sub_scan andb] in H. now rewrite Hp in H.
Qed.

(** A word holds no whitespace, is in lower case, and is one token. *)
Lemma lower_az_not_space (c : ascii) :
  is_lower_az c = true -> isspace c = false /\ lower_char c = c.
Proof.
  unfold is_lower_az, isspace, lower_char.
  set (n := nat_of_ascii c). intros H.
  apply andb_prop in H. destruct H as [H1 H2].
  apply Nat.leb_le in H1, H2.
  assert (F1 : (n <=? 13)%nat = false) by (apply Nat.leb_gt; lia).
  assert (F2 : (n <=? 32)%nat = false) by (apply Nat.leb_gt; lia).
  assert (F3 : (n =? 133)%nat = false) by (apply Nat.eqb_neq; lia).
  assert (F4 : (n =? 160)%nat = false) by (apply Nat.eqb_neq; lia).
  assert (F5 : (n <=? 90)%nat = false) by (apply Nat.leb_gt; lia).
  assert (F6 : (192 <=? n)%nat = false) by (apply Nat.leb_gt; lia).
  rewrite F1, F2, F3, F4, F5, F6, !andb_false_r. split; reflexivity.
Qed.

Lemma word_no_space (s : string) :
  forall_chars is_lower_az s = true ->
  forall_chars (fun c => negb (isspace c)) s = true.
Proof.
  apply forall_chars_impl. intros c H.
  destruct (lower_az_not_space c H) as [-> _]. reflexivity.
Qed.

Lemma rstrip_no_space (s : string) :
  forall_chars (fun c => negb (isspace c)) s = true -> rstrip s = s.
Proof.
  induction s as [| c s IH]; [reflexivity |].
  cbn [forall_chars rstrip]. intros H. apply andb_prop in H.
  destruct H as [Hc Hs]. rewrite (IH Hs).
  destruct s; [| reflexivity].
  destruct (isspace c); [discriminate | reflexivity].
Qed.

Lemma strip_no_space (s : string) :
  forall_chars (fun c => negb (isspace c)) s = true -> strip s = s.
Proof.
  intros H. unfold strip.
  assert (Hl : lstrip s = s).
  { destruct s as [| c s]; [reflexivity |].
    cbn [forall_chars] in H. apply andb_prop in H. destruct H as [Hc _].
    cbn [lstrip]. destruct (isspace c); [discriminate | reflexivity]. }
  rewrite Hl. now apply rstrip_no_space.
Qed.

Lemma lower_word (s : string) :
  forall_chars is_lower_az s = true -> lower s = s.
Proof.
  unfold lower. induction s as [| c s IH]; [reflexivity |].
  cbn [forall_chars map_chars]. intros H. apply andb_prop in H.
  destruct H as [Hc Hs]. rewrite (IH Hs).
  destruct (lower_az_not_space c Hc) as [_ ->]. reflexivity.
Qed.

Lemma re_sub_word (s : string) :
  forall_chars is_lower_az s = true -> re_sub_not_az_ws s = s.
Proof.
  unfold re_sub_not_az_ws. induction s as [| c s IH]; [reflexivity |].
  cbn [forall_chars filter_chars]. intros H. apply andb_prop in H.
  destruct H as [Hc Hs]. rewrite (IH Hs), Hc. reflexivity.
Qed.

Lemma split_one_token (s : string) :
  s <> "" -> forall_chars (fun c => negb (isspace c)) s = true ->
  split s = [s].
Proof.
  induction s as [| c s IH]; [intros H; now destruct H |].
  intros _. cbn [forall_chars split]. intros H. apply andb_prop in H.
  destruct H as [Hc Hs].
  destruct (isspace c); [discriminate |].
  destruct s as [| c' s']; [reflexivity |].
  rewrite (IH ltac:(discriminate) Hs).
  cbn [forall_chars] in Hs. apply andb_prop in Hs. destruct Hs as [Hc' _].
  destruct (isspace c'); [discriminate | reflexivity].
Qed.

Lemma prefix_app (a b s : string) :
  prefix (a ++ b) s = true -> prefix a s = true.
Proof.
  revert s. induction a as [| c a IH]; intros s H; [apply prefix_nil_l |].
  destruct s as [| c' s]; [discriminate |].
  cbn [String.append] in H. rewrite prefix_cons in *.
  destruct (Ascii.eqb c c'); [now apply IH | discriminate].
Qed.

(** A text that holds [a ++ b] holds [a]. *)
Lemma contains_app (a b s : string) :
  contains (a ++ b) s = true -> contains a s = true.
Proof.
  induction s as [| c s IH].
  - cbn [contains]. rewrite !orb_false_r. apply prefix_app.
  - rewrite !contains_cons. intros H. apply orb_prop in H.
    destruct H as [H | H].
    + now rewrite (prefix_app a b _ H).
    + rewrite (IH H). apply orb_true_r.
Qed.

(** [re.sub] leaves a text without the literal as it is. *)
Lemma re_sub_lit_ws_absent (lit s : string) :
  contains lit s = false -> re_sub_lit_ws lit s = s.
Proof.
  unfold re_sub_lit_ws. induction s as [| c s IH]; [reflexivity |].
  rewrite contains_cons. intros H. apply orb_false_elim in H.
  destruct H as [Hp Hs]. cbn [re_sub_scan andb]. rewrite Hp.
  now rewrite (IH Hs).
Qed.

(** X6. What is left of a text after the two [re.sub] calls on code
    fences holds no fence: three backquotes in a row never reach
    [json.loads]. Removing the fences a second time therefore changes
    nothing. *)
Theorem strip_fences_no_fence (text : string) :
  contains "```" (strip_fences text) = false
  /\ strip_fences (strip_fences text) = strip_fences text.
Proof.
  assert (Hno : contains "```" (strip_fences text) = false).
  { unfold strip_fences, re_sub_lit_ws. apply re_sub_scan_no_fence. }
  split; [exact Hno |].
  assert (Hjson : contains "```json" (strip_fences text) = false).
  { destruct (contains "```json" (strip_fences text)) eqn:H; [| reflexivity].
    apply (contains_app "```" "json") in H. congruence. }
  unfold strip_fences at 1.
  now rewrite (re_sub_lit_ws_absent _ _ Hjson), (re_sub_lit_ws_absent _ _ Hno).
Qed.

(** ** The name of the fruit *)

Lemma get_fruit_name_word (w : World) (image_bytes : bytes) :
  exists info name,
    get_fruit_name w image_bytes = Returns info
    /\ name_of info = PStr name
    /\ is_word name.
Proof.
  assert (Hunknown : is_word "unknown") by (split; [discriminate | reflexivity]).
  unfold get_fruit_name.
  destruct (client w) as [cl|].
  - destruct (completion_content cl FruitNamePrompt 50 image_bytes)
      as [content|e]; cbn [bind try_except].
    + destruct content as [| b | z | f | s | l | d];
        cbn [py_strip bind try_except];
        try (do 2 eexists; split; [reflexivity |]; split;
             [reflexivity | exact Hunknown]).
      do 2 eexists. split; [reflexivity |]. split; [reflexivity |].
      now apply (fruit_name_word s).
    + do 2 eexists. split; [reflexivity |]. split; [reflexivity | exact Hunknown].
  - do 2 eexists. split; [reflexivity |]. split; [reflexivity | exact Hunknown].
Qed.

(** X7. Whatever Provider B replies, the name [analyze_image] reads off
    [get_fruit_name] is a word, not empty and of the letters [a] to [z]
    alone, and it is the [fruit_name] of every report [analyze_image]
    returns. *)
Theorem report_fruit_name_word (w : World) (image_bytes : bytes) :
  exists info name,
    get_fruit_name w image_bytes = Returns info
    /\ name_of info = PStr name
    /\ is_word name
    /\ forall d,
         analyze_image w image_bytes = Returns d ->
         is_report d = true ->
         dict_get d "fruit_name" = Some (PStr name).
Proof.
  destruct (get_fruit_name_word w image_bytes) as (info & name & Hinfo & Hn & Hw).
  exists info, name. repeat split; try assumption; try apply Hw.
  intros d Hd Hrep. rewrite <- Hn.
  now apply (report_fruit_name w image_bytes info d).
Qed.

(** X8. A reply of Provider B that is already a word comes back from
    [get_fruit_name] unchanged. *)
Theorem get_fruit_name_word_reply (w : World) (image_bytes : bytes)
  (reply : string) :
  provider_B_replies w FruitNamePrompt 50 image_bytes reply ->
  is_word reply ->
  get_fruit_name w image_bytes = Returns [("fruit_name", PStr reply)].
Proof.
  intros (cl & Hcl & Hreply) [Hne Hword].
  unfold get_fruit_name. rewrite Hcl, Hreply. cbn [bind py_strip try_except].
  pose proof (word_no_space reply Hword) as Hns.
  rewrite (strip_no_space reply Hns), (lower_word reply Hword),
    (re_sub_word reply Hword), (split_one_token reply Hne Hns).
  reflexivity.
Qed.

Lemma get_fruit_name_word_reply_witness :
  provider_B_replies
    (world (Some (openai (Returns (PStr "banana")) (Raises ValueError))) None)
    FruitNamePrompt 50 photo "banana"
  /\ is_word "banana"
  /\ get_fruit_name
       (world (Some (openai (Returns (PStr "banana")) (Raises ValueError))) None)
       photo
     = Returns [("fruit_name", PStr "banana")].
Proof.
  assert (Hreply : provider_B_replies
            (world (Some (openai (Returns (PStr "banana")) (Raises ValueError)))
                   None)
            FruitNamePrompt 50 photo "banana").
  { eexists. split; reflexivity. }
  assert (Hword : is_word "banana") by (split; [discriminate | reflexivity]).
  split; [exact Hreply |]. split; [exact Hword |].
  exact (get_fruit_name_word_reply _ photo "banana" Hreply Hword).
Defined.

(** ** The ripeness parser *)

(** X9. In the result of the keyword scan, on a reply that is not JSON,
    the ripeness is ["unknown"] exactly when the text does not hold
    ["ripe"]; the fruit name is a fruit of the fixed list that occurs in the
    text, or ["unknown"] when no fruit of the list occurs. *)
Theorem analyze_ripeness_keyword_facts (w : World) (image_bytes : bytes)
  (reply : string) :
  provider_B_replies w RipenessPrompt 200 image_bytes reply ->
  json_loads w (json_text reply) = Raises JSONDecodeError ->
  exists fruit_name ripeness,
    analyze_ripeness_with_openai w image_bytes
    = Returns [("fruit_name", PStr fruit_name); ("ripeness", PStr ripeness);
               ("confidence", PFloat 70); ("source", PStr "openai")]
    /\ (ripeness = "unknown"
        <-> contains "ripe" (lower (json_text reply)) = false)
    /\ ((In fruit_name common_fruits
         /\ contains fruit_name (lower (json_text reply)) = true)
        \/ (fruit_name = "unknown"
            /\ forall fruit,
                 In fruit common_fruits ->
                 contains fruit (lower (json_text reply)) = false)).
Proof.
  intros Hreply Hjson.
  exists (scan_fruit common_fruits (lower (json_text reply))),
         (scan_ripeness (lower (json_text reply))).
  split; [| split].
  - now apply analyze_ripeness_not_json.
  - apply scan_ripeness_unknown.
  - apply scan_fruit_occurs.
Qed.

(** Prose about a pineapple: no ["ripe"] in it, and the scan finds the
    ["apple"] in ["pineapple"]. *)
Lemma analyze_ripeness_keyword_facts_witness :
  provider_B_replies
    (world (Some (provider_B_saying "A pineapple, still green.")) None)
    RipenessPrompt 200 photo "A pineapple, still green."
  /\ json_loads (world (Some (provider_B_saying "A pineapple, still green.")) None)
       (json_text "A pineapple, still green.")
     = Raises JSONDecodeError
  /\ analyze_ripeness_with_openai
       (world (Some (provider_B_saying "A pineapple, still green.")) None) photo
     = Returns [("fruit_name", PStr "apple"); ("ripeness", PStr "unknown");
                ("confidence", PFloat 70); ("source", PStr "openai")].
Proof.
  assert (Hreply : provider_B_replies
            (world (Some (provider_B_saying "A pineapple, still green.")) None)
            RipenessPrompt 200 photo "A pineapple, still green.").
  { eexists. split; reflexivity. }
  split; [exact Hreply |]. split; [reflexivity |].
  destruct (analyze_ripeness_keyword_facts _ photo _ Hreply eq_refl)
    as (fruit_name & ripeness & Hr & _).
  rewrite Hr. vm_compute in Hr. injection Hr as <- <-. reflexivity.
Defined.

Lemma py_float_not_json (w : World) (x : pyval) :
  py_float w x <> Raises JSONDecodeError.
Proof.
  unfold py_float. destruct x; try discriminate.
  - unfold float_of_int. now destruct (binary_normalize prec emax z 0 false).
  - now destruct (float_of_str w s).
Qed.

(** X10. A ripeness of ["unknown"] comes from the keyword scan alone: when
    the result of [analyze_ripeness_with_openai] says ["unknown"], Provider B
    replied with a text that [json.loads] rejected and that does not hold
    ["ripe"]. A reply that is JSON never gives ["unknown"], whatever it
    says. *)
Theorem analyze_ripeness_unknown (w : World) (image_bytes : bytes)
  (r : pydict) :
  analyze_ripeness_with_openai w image_bytes = Returns r ->
  dict_get r "ripeness" = Some (PStr "unknown") ->
  exists reply,
    provider_B_replies w RipenessPrompt 200 image_bytes reply
    /\ json_loads w (json_text reply) = Raises JSONDecodeError
    /\ contains "ripe" (lower (json_text reply)) = false.
Proof.
  unfold analyze_ripeness_with_openai. intros Hr Hunknown.
  assert (Herr : forall msg, Returns [("error", PStr msg)] = Returns r -> False).
  { intros msg H. injection H as <-. discriminate. }
  destruct (client w) as [cl|] eqn:Hcl; [| now destruct (Herr _ Hr)].
  destruct (completion_content cl RipenessPrompt 200 image_bytes)
    as [content|e] eqn:Hcontent; [| now destruct (Herr _ Hr)].
  destruct content as [| b | z | f | s | l | d];
    cbn [bind py_strip try_except] in Hr; try now destruct (Herr _ Hr).
  fold (json_text s) in Hr.
  assert (Hscan : forall e,
    try_except
      (if is_JSONDecodeError e
       then Returns [("fruit_name", PStr (scan_fruit common_fruits (lower (json_text s))));
                     ("ripeness", PStr (scan_ripeness (lower (json_text s))));
                     ("confidence", PFloat 70); ("source", PStr "openai")]
       else Raises e)
      (fun e0 => Returns [("error", PStr (str_exn w e0))]) = Returns r ->
    e = JSONDecodeError
    /\ contains "ripe" (lower (json_text s)) = false).
  { intros e H. destruct e; cbn [is_JSONDecodeError try_except] in H;
      try now destruct (Herr _ H).
    split; [reflexivity |]. injection H as <-.
    apply scan_ripeness_unknown. cbn in Hunknown. now injection Hunknown. }
  destruct (json_loads w (json_text s)) as [result|e] eqn:Hjson;
    cbn [bind try_except_only] in Hr.
  - exfalso.
    destruct result as [| b | z | f | s0 | l | d];
      cbn [py_get bind try_except_only try_except] in Hr;
      try now destruct (Herr _ Hr).
    destruct (dict_get_default d "fruit_name" (PStr "unknown"));
      cbn [py_lower bind try_except_only try_except] in Hr;
      try now destruct (Herr _ Hr).
    destruct (dict_get_default d "ripeness" (PStr "unknown")) as [| | | | rp | |];
      cbn [py_lower bind try_except_only try_except] in Hr;
      try now destruct (Herr _ Hr).
    destruct (py_float w (dict_get_default d "confidence" (PFloat 75)))
      as [c|e] eqn:Hc; cbn [bind try_except_only] in Hr.
    + cbn [try_except] in Hr. injection Hr as <-. cbn in Hunknown.
      destruct (in_strings (lower rp) ["unripe"; "ripe"; "overripe"]) eqn:Hin;
        cbn [negb] in Hunknown; [| discriminate].
      injection Hunknown as Hrp. rewrite Hrp in Hin. discriminate.
    + destruct (Hscan e Hr) as [-> _]. now apply py_float_not_json in Hc.
  - destruct (Hscan e Hr) as [-> Hripe].
    exists s. split; [| split; [exact Hjson | exact Hripe]].
    exists cl. split; [exact Hcl | exact Hcontent].
Qed.

Lemma analyze_ripeness_unknown_witness :
  analyze_ripeness_with_openai
    (world (Some (provider_B_saying "A pineapple, still green.")) None) photo
  = Returns [("fruit_name", PStr "apple"); ("ripeness", PStr "unknown");
             ("confidence", PFloat 70); ("source", PStr "openai")]
  /\ exists reply,
       provider_B_replies
         (world (Some (provider_B_saying "A pineapple, still green.")) None)
         RipenessPrompt 200 photo reply
       /\ json_loads
            (world (Some (provider_B_saying "A pineapple, still green.")) None)
            (json_text reply)
          = Raises JSONDecodeError
       /\ contains "ripe" (lower (json_text reply)) = false.
Proof.
  assert (Hr : analyze_ripeness_with_openai
                 (world (Some (provider_B_saying "A pineapple, still green.")) None)
                 photo
               = Returns [("fruit_name", PStr "apple"); ("ripeness", PStr "unknown");
                          ("confidence", PFloat 70); ("source", PStr "openai")])
    by reflexivity.
  split; [exact Hr |].
  exact (analyze_ripeness_unknown _ photo _ Hr eq_refl).
Defined.

(** X11. A successful result of [analyze_ripeness_with_openai] always
    holds a ripeness and a confidence, so that the defaults ["unknown"] and
    70.0 with which [analyze_image] reads them are never used: the report
    carries the two values of the result. *)
Theorem openai_report_defaults_unused (w : World) (image_bytes : bytes)
  (r : pydict) (fruit_name : pyval) (source : string) :
  analyze_ripeness_with_openai w image_bytes = Returns r ->
  dict_mem "error" r = false ->
  exists ripeness confidence,
    dict_get r "ripeness" = Some (PStr ripeness)
    /\ dict_get r "confidence" = Some (PFloat confidence)
    /\ openai_report fruit_name r source
       = [("fruit_name", fruit_name); ("ripeness", PStr ripeness);
          ("confidence", PFloat confidence); ("source", PStr source)].
Proof.
  intros Hr Hok.
  destruct (analyze_ripeness_returns w image_bytes) as [r' [Hr' Hshape]].
  rewrite Hr in Hr'. injection Hr' as <-.
  destruct Hshape as [[_ Herr] | [(fn & rp & c & -> & _) _]]; [congruence |].
  exists rp, c. repeat split; reflexivity.
Qed.

Lemma openai_report_defaults_unused_witness :
  analyze_ripeness_with_openai (world (Some provider_B_prose) None) photo
  = Returns [("fruit_name", PStr "mango"); ("ripeness", PStr "unripe");
             ("confidence", PFloat 70); ("source", PStr "openai")]
  /\ openai_report (PStr "banana")
       [("fruit_name", PStr "mango"); ("ripeness", PStr "unripe");
        ("confidence", PFloat 70); ("source", PStr "openai")] "openai_primary"
     = [("fruit_name", PStr "banana"); ("ripeness", PStr "unripe");
        ("confidence", PFloat 70); ("source", PStr "openai_primary")].
Proof.
  assert (Hr : analyze_ripeness_with_openai (world (Some provider_B_prose) None)
                 photo
               = Returns [("fruit_name", PStr "mango"); ("ripeness", PStr "unripe");
                          ("confidence", PFloat 70); ("source", PStr "openai")])
    by reflexivity.
  split; [exact Hr |].
  destruct (openai_report_defaults_unused _ photo _ (PStr "banana")
              "openai_primary" Hr eq_refl)
    as (ripeness & confidence & Hrp & Hc & Hrep).
  rewrite Hrep. injection Hrp as <-. injection Hc as <-. reflexivity.
Defined.

(** ** The resolver *)

(** Where a result of [analyze_image] comes from. *)
Lemma analyze_image_cases (w : World) (image_bytes : bytes) (d : pydict) :
  analyze_image w image_bytes = Returns d ->
  exists info n r,
    get_fruit_name w image_bytes = Returns info
    /\ name_of info = PStr n
    /\ analyze_ripeness_with_openai w image_bytes = Returns r
    /\ ((CLIENT w = None
         /\ d = fallback (PStr n) r "openai_primary" "OpenAI analysis failed")
        \/ (exists cv,
              CLIENT w = Some cv
              /\ zero_predictions w cv image_bytes
              /\ d = fallback (PStr n) r "openai_fallback"
                       "No predictions found from CV model and OpenAI fallback failed")
        \/ (exists cv e,
              CLIENT w = Some cv
              /\ cv_attempt w cv (PStr n) image_bytes = Raises e
              /\ d = fallback (PStr n) r "openai_fallback"
                       ("CV model error and OpenAI fallback failed: "
                        ++ str_exn w e)%string)
        \/ (exists cv result preds,
              CLIENT w = Some cv
              /\ provider_A_returns w cv image_bytes result
              /\ py_get result "predictions" (PList []) = Returns preds
              /\ py_truthy preds = true
              /\ cv_report (PStr n) preds = Returns d)).
Proof.
  intros Hd.
  destruct (analyze_image_unfold w image_bytes)
    as (info & n & r & Hinfo & Hn & Hr & Himg).
  exists info, n, r. repeat (split; [assumption |]).
  rewrite Hd in Himg.
  destruct (CLIENT w) as [cv|] eqn:HC.
  - destruct (cv_attempt w cv (PStr n) image_bytes) as [d'|e] eqn:Hcv;
      cbn [try_except] in Himg; injection Himg as Himg.
    + subst d'.
      destruct (cv_attempt_returns _ _ _ _ _ _ Hr Hcv)
        as [[Hzero Hd'] | (result & preds & HA & Hget & Ht & Hrep)].
      * right. left. exists cv. auto.
      * right. right. right. exists cv, result, preds. auto.
    + right. right. left. exists cv, e. auto.
  - injection Himg as Himg. left. auto.
Qed.

Lemma fallback_cases (n : string) (r : pydict) (source msg : string) :
  (dict_mem "error" r = false
   /\ fallback (PStr n) r source msg = openai_report (PStr n) r source)
  \/ (dict_mem "error" r = true
      /\ fallback (PStr n) r source msg = error_result msg).
Proof.
  unfold fallback. destruct (dict_mem "error" r); [right | left]; auto.
Qed.



Lemma fallback_source (n : string) (r : pydict) (source msg : string) :
  source <> "cv_model" ->
  dict_get (fallback (PStr n) r source msg) "source" <> Some (PStr "cv_model").
Proof.
  intros Hne.
  destruct (fallback_cases n r source msg) as [[_ ->] | [_ ->]].
  - cbn. intros H. apply Hne. now injection H.
  - discriminate.
Qed.

(** X13. When the report comes from Provider A, the ripeness analysis of
    Provider B has no part in it: in every world with the same Provider A,
    the same image library and the same fruit name from [get_fruit_name],
    [analyze_image] returns the same report. *)
Theorem analyze_image_cv_model_alone (w w' : World) (image_bytes : bytes)
  (d : pydict) :
  CLIENT w' = CLIENT w ->
  Image_open_RGB w' image_bytes = Image_open_RGB w image_bytes ->
  get_fruit_name w' image_bytes = get_fruit_name w image_bytes ->
  analyze_image w image_bytes = Returns d ->
  dict_get d "source" = Some (PStr "cv_model") ->
  analyze_image w' image_bytes = Returns d.
Proof.
  intros HC Himage Hname Hd Hsource.
  destruct (analyze_image_cases w image_bytes d Hd)
    as (info & n & r & Hinfo & Hn & _ & Hcases).
  destruct Hcases
    as [[_ H] | [(cv & _ & _ & H) | [(cv & e & _ & _ & H)
        | (cv & result & preds & Hcv & (image & Hopen & Hinfer) & Hget & Ht & Hrep)]]];
    try (exfalso; subst d; revert Hsource; apply fallback_source; discriminate).
  destruct (analyze_image_unfold w' image_bytes)
    as (info' & n' & r' & Hinfo' & Hn' & _ & Himg).
  rewrite Hname, Hinfo in Hinfo'. injection Hinfo' as <-.
  rewrite Hn in Hn'. injection Hn' as <-.
  rewrite Himg, HC, Hcv. unfold cv_attempt.
  rewrite Himage, Hopen. cbn [bind]. rewrite Hinfer. cbn [bind].
  rewrite Hget. cbn [bind]. rewrite Ht. cbn [negb]. rewrite Hrep. reflexivity.
Qed.

(** The report of the two predictions is the same whether Provider B
    answers the ripeness request with JSON or with prose. *)
Lemma analyze_image_cv_model_alone_witness :
  analyze_image (world (Some provider_B) (Some cv_two)) photo
  = Returns [("fruit_name", PStr "banana"); ("ripeness", PStr "ripe");
             ("confidence", PFloat 91); ("source", PStr "cv_model")]
  /\ analyze_image (world (Some provider_B_prose) (Some cv_two)) photo
     = Returns [("fruit_name", PStr "banana"); ("ripeness", PStr "ripe");
                ("confidence", PFloat 91); ("source", PStr "cv_model")].
Proof.
  split; [reflexivity |].
  exact (analyze_image_cv_model_alone
           (world (Some provider_B) (Some cv_two))
           (world (Some provider_B_prose) (Some cv_two)) photo _
           eq_refl eq_refl eq_refl eq_refl eq_refl).
Defined.

Lemma last_opt_In {A : Type} (l : list A) (x : A) :
  last_opt l = Some x -> In x l.
Proof.
  induction l as [| a l IH]; [discriminate |].
  destruct l as [| b l].
  - intros H. injection H as <-. now left.
  - intros H. right. now apply IH.
Qed.

Lemma stage_is_token (ripeness : string) :
  In ripeness ripeness_stages -> is_token ripeness.
Proof.
  intros [<- | [<- | [<- | [<- | []]]]]; (split; [discriminate | reflexivity]).
Qed.

(** X14. The ripeness of every report [analyze_image] returns is a token:
    a text that is not empty and holds no whitespace, whatever class labels
    Provider A sends. *)
Theorem analyze_image_ripeness_token (w : World) (image_bytes : bytes)
  (d : pydict) :
  analyze_image w image_bytes = Returns d ->
  is_error d = false ->
  exists ripeness,
    dict_get d "ripeness" = Some (PStr ripeness) /\ is_token ripeness.
Proof.
  intros Hd Hnoerr.
  destruct (analyze_image_cases w image_bytes d Hd)
    as (info & n & r & _ & _ & Hr & Hcases).
  destruct (analyze_ripeness_returns w image_bytes) as [r' [Hr' Hshape]].
  rewrite Hr in Hr'. injection Hr' as <-.
  assert (Hfb : forall source msg,
            d = fallback (PStr n) r source msg ->
            exists ripeness,
              dict_get d "ripeness" = Some (PStr ripeness) /\ is_token ripeness).
  { intros source msg ->.
    destruct Hshape as [[_ Herr] | [Hp Hok]].
    - rewrite (fallback_error n r source msg Herr) in Hnoerr. discriminate.
    - destruct (fallback_parsed n r source msg Hp Hok) as [rp [c [-> Hin]]].
      exists rp. split; [reflexivity | now apply stage_is_token]. }
  destruct Hcases
    as [[_ H] | [(cv & _ & _ & H) | [(cv & e & _ & _ & H)
        | (cv & result & preds & _ & _ & _ & _ & Hrep)]]];
    try (eapply Hfb; eassumption).
  apply cv_report_returns in Hrep.
  destruct Hrep as (top & stage & scaled & conf & _ & Hstage & _ & _ & _ & ->).
  exists stage. split; [reflexivity |].
  unfold last_token in Hstage.
  destruct (label_of top) as [| | | | s | |]; try discriminate.
  apply last_opt_In in Hstage.
  pose proof (split_tokens s) as Htok.
  rewrite Forall_forall in Htok. exact (Htok stage Hstage).
Qed.

(** A class label with whitespace on both sides of its last word. *)
Lemma analyze_image_ripeness_token_witness :
  analyze_image
    (world (Some provider_B)
           (Some (roboflow (predictions [prediction "  mango   half ripe  " 0.5]))))
    photo
  = Returns [("fruit_name", PStr "banana"); ("ripeness", PStr "ripe");
             ("confidence", PFloat 50); ("source", PStr "cv_model")]
  /\ is_token "ripe".
Proof.
  split; [reflexivity |].
  destruct (analyze_image_ripeness_token
              (world (Some provider_B)
                 (Some (roboflow
                          (predictions [prediction "  mango   half ripe  " 0.5]))))
              photo _ eq_refl eq_refl) as (ripeness & Hrp & Htok).
  injection Hrp as <-. exact Htok.
Defined.

(** ** The clients *)

(** X15. When [ROBOFLOW_URL] or [ROBOFLOW_API_KEY] is not set or is empty,
    or the constructor of the Roboflow client raises, [CLIENT] is [None]
    after the file is loaded, and [analyze_image] answers from Provider B
    alone: the report with source ["openai_primary"], or the error
    ["OpenAI analysis failed"]. *)
Theorem analyze_image_without_CLIENT (w : World) (image_bytes : bytes)
  (roboflow_url roboflow_key : option string)
  (InferenceHTTPClient_new : string -> string -> outcome InferenceHTTPClient) :
  CLIENT w = init_CLIENT roboflow_url roboflow_key InferenceHTTPClient_new ->
  truthy_text roboflow_url && truthy_text roboflow_key = false
  \/ (exists url key e,
        roboflow_url = Some url /\ roboflow_key = Some key
        /\ InferenceHTTPClient_new url key = Raises e) ->
  CLIENT w = None
  /\ exists info r,
       get_fruit_name w image_bytes = Returns info
       /\ analyze_ripeness_with_openai w image_bytes = Returns r
       /\ analyze_image w image_bytes
          = Returns (fallback (name_of info) r "openai_primary"
                       "OpenAI analysis failed").
Proof.
  intros HC Hwhy.
  assert (Hnone : CLIENT w = None).
  { rewrite HC. unfold init_CLIENT.
    destruct Hwhy as [Hunset | (url & key & e & -> & -> & Hraise)].
    - destruct roboflow_url as [url|], roboflow_key as [key|];
        try reflexivity. now rewrite Hunset.
    - rewrite Hraise. now destruct (truthy_text (Some url) && truthy_text (Some key)). }
  split; [exact Hnone |].
  destruct (analyze_image_unfold w image_bytes)
    as (info & n & r & Hinfo & Hn & Hr & Himg).
  exists info, r. split; [exact Hinfo |]. split; [exact Hr |].
  rewrite Himg, Hnone, Hn. reflexivity.
Qed.

(** An empty [ROBOFLOW_API_KEY]. *)
Lemma analyze_image_without_CLIENT_witness :
  CLIENT (world (Some provider_B)
                (init_CLIENT (Some "https://detect.roboflow.com") (Some "")
                   roboflow_new))
  = init_CLIENT (Some "https://detect.roboflow.com") (Some "") roboflow_new
  /\ truthy_text (Some "https://detect.roboflow.com") && truthy_text (Some "")
     = false
  /\ analyze_image
       (world (Some provider_B)
              (init_CLIENT (Some "https://detect.roboflow.com") (Some "")
                 roboflow_new)) photo
     = Returns [("fruit_name", PStr "banana"); ("ripeness", PStr "ripe");
                ("confidence", PFloat 88); ("source", PStr "openai_primary")].
Proof.
  split; [reflexivity |]. split; [reflexivity |].
  destruct (analyze_image_without_CLIENT
              (world (Some provider_B)
                 (init_CLIENT (Some "https://detect.roboflow.com") (Some "")
                    roboflow_new))
              photo (Some "https://detect.roboflow.com") (Some "") roboflow_new
              eq_refl (or_introl eq_refl))
    as (_ & info & r & Hinfo & Hr & Himg).
  rewrite Himg. vm_compute in Hinfo. vm_compute in Hr.
  injection Hinfo as <-. injection Hr as <-. reflexivity.
Defined.

(** The settings in place and a constructor that accepts them give the
    client; a constructor that raises gives none. *)
Example init_CLIENT_set :
  init_CLIENT (Some "https://detect.roboflow.com") (Some "key") roboflow_new
  = Some cv_two
  /\ init_CLIENT (Some "https://detect.roboflow.com") (Some "key")
       roboflow_new_fails
     = None.
Proof. split; reflexivity. Qed.

(** X16. When [OPENAI_API_KEY] is not set or is empty, [client] is [None]
    after the file is loaded; the four functions of [openai_service] that
    call Provider B then return the error ["OpenAI API not configured"],
    and [analyze_image] returns an error or a report of Provider A whose
    fruit name is ["unknown"]. *)
Theorem client_not_configured (w : World) (api_key : option string)
  (OpenAI_new : string -> outcome OpenAI) (advisor : Advisor)
  (image_bytes : bytes) :
  truthy_text api_key = false ->
  init_client api_key OpenAI_new = Returns (client w) ->
  get_fruit_name w image_bytes
  = Returns (error_result "OpenAI API not configured")
  /\ analyze_ripeness_with_openai w image_bytes
     = Returns (error_result "OpenAI API not configured")
  /\ (forall fruit_name ripeness,
        get_recipes_and_safety w advisor image_bytes fruit_name ripeness
        = Returns (PDict (error_result "OpenAI API not configured")))
  /\ (forall fruit_name ripeness,
        get_nutrition_and_impact w advisor fruit_name ripeness
        = Returns (PDict (error_result "OpenAI API not configured")))
  /\ exists d,
       analyze_image w image_bytes = Returns d
       /\ (is_error d = true
           \/ (dict_get d "fruit_name" = Some (PStr "unknown")
               /\ dict_get d "source" = Some (PStr "cv_model"))).
Proof.
  intros Hkey Hinit.
  assert (Hnone : client w = None).
  { unfold init_client in Hinit. destruct api_key as [key|].
    - rewrite Hkey in Hinit. cbn [negb] in Hinit. now injection Hinit.
    - now injection Hinit. }
  assert (Hname : get_fruit_name w image_bytes
                  = Returns (error_result "OpenAI API not configured")).
  { unfold get_fruit_name. now rewrite Hnone. }
  assert (Hripe : analyze_ripeness_with_openai w image_bytes
                  = Returns (error_result "OpenAI API not configured")).
  { unfold analyze_ripeness_with_openai. now rewrite Hnone. }
  split; [exact Hname |]. split; [exact Hripe |]. split; [| split].
  - intros fruit_name ripeness. unfold get_recipes_and_safety. now rewrite Hnone.
  - intros fruit_name ripeness. unfold get_nutrition_and_impact.
    now rewrite Hnone.
  - destruct (analyze_image_unfold w image_bytes)
      as (info & n & r & Hinfo & Hn & Hr & Himg).
    rewrite Hname in Hinfo. injection Hinfo as <-.
    cbn in Hn. injection Hn as <-.
    rewrite Hripe in Hr. injection Hr as <-.
    destruct (CLIENT w) as [cv|] eqn:HC.
    + destruct (cv_attempt w cv (PStr "unknown") image_bytes) as [d|e] eqn:Hcv;
        cbn [try_except] in Himg.
      * exists d. split; [exact Himg |].
        destruct (cv_attempt_returns _ _ _ _ _ _ Hripe Hcv)
          as [[_ ->] | (result & preds & _ & _ & _ & Hrep)].
        -- left. reflexivity.
        -- right. apply cv_report_returns in Hrep.
           destruct Hrep as (top & stage & scaled & conf & _ & _ & _ & _ & _ & ->).
           split; reflexivity.
      * eexists. split; [exact Himg |]. left. reflexivity.
    + eexists. split; [exact Himg |]. left. reflexivity.
Qed.

(** No [OPENAI_API_KEY], and a Provider A with two predictions. *)
Lemma client_not_configured_witness :
  truthy_text None = false
  /\ init_client None (fun key => Returns provider_B)
     = Returns (client (world None (Some cv_two)))
  /\ analyze_image (world None (Some cv_two)) photo
     = Returns [("fruit_name", PStr "unknown"); ("ripeness", PStr "ripe");
                ("confidence", PFloat 91); ("source", PStr "cv_model")]
  /\ get_fruit_name (world None (Some cv_two)) photo
     = Returns (error_result "OpenAI API not configured").
Proof.
  split; [reflexivity |]. split; [reflexivity |]. split; [reflexivity |].
  exact (proj1 (client_not_configured (world None (Some cv_two)) None
                  (fun key => Returns provider_B) echo photo
                  eq_refl eq_refl)).
Defined.
